(** * Pharmacy dispatch (devolution) QR scan: model of the route handler

    Source: [src/app/api/qr-scan/pharmacy-dispatch-devolution/route.ts],
    the [POST] handler.  The handler talks to a relational store through
    Prisma and to an auth provider through Supabase.  Here the store is an
    explicit value threaded through the handler, every table that is read or
    written is a field of it, and an exception raised by a store call is an
    explicit outcome that the handler's [catch] turns into a 500 response. *)

From Stdlib Require Import ZArith QArith String List Lia.
From stdpp Require Import base option list gmap strings fin_maps pretty.

Local Open Scope Z_scope.
Local Open Scope string_scope.

(** ** JSON values of the request body *)

(** What [await request.json()] can put in a destructured field.  A field
    absent from the body is [JUndefined]; objects and arrays are always
    truthy and their content is never inspected, so one constructor stands
    for them. *)
Inductive JsonValue :=
| JUndefined
| JNull
| JBool (b : bool)
| JNumber (q : Q)
| JString (s : string)
| JComposite.

(** JavaScript's [ToBoolean], as used by [!x]. *)
Definition truthy (v : JsonValue) : bool :=
  match v with
  | JUndefined | JNull => false
  | JBool b => b
  | JNumber q => negb (Qeq_bool q 0)
  | JString s => negb (String.eqb s "")
  | JComposite => true
  end.

(** [v === undefined || v === null] *)
Definition nullish (v : JsonValue) : bool :=
  match v with
  | JUndefined | JNull => true
  | _ => false
  end.

Definition is_number (v : JsonValue) : bool :=
  match v with
  | JNumber _ => true
  | _ => false
  end.

(** ** Rows of the store *)

(** Each row type carries the columns the handler reads, filters on or
    writes, under the names [route.ts] uses for them.  The relation
    [patient.service.lineId] of the eligibility query is followed through the
    [patients] and [services] tables. *)

(** Modelled from the spec: the [ProcessStatus] enum is declared in
    [@/types/patient], which is not among the sources; its members are the
    six statuses the specification lists for a MedicationProcess. *)
Inductive ProcessStatus :=
| PENDING
| IN_PROGRESS
| DISPATCHED_FROM_PHARMACY
| DELIVERED
| COMPLETED
| ERROR.

#[global] Instance ProcessStatus_eq_dec : EqDecision ProcessStatus.
Proof. solve_decision. Defined.

Record User := { user_id : string }.

Record Profile := { profile_id : string }.

Record Line := { displayName : string }.

Record QRCode := {
  qr_id : string;
  isActive : bool;
  qr_type : string
}.

(** Instants are milliseconds since the epoch, as in a JavaScript [Date]. *)
Record DailyProcess := {
  dp_id : string;
  date : Z;
  createdAt : Z
}.

Record Service := { lineId : string }.

Record Patient := { serviceId : string }.

(** A row of [medicationProcess]; its primary key is the key of the table. *)
Record MedicationProcess := {
  patientId : string;
  dailyProcessId : string;
  step : string;
  status : ProcessStatus;
  updatedAt : Z
}.

Record QRScanRecord := {
  sr_patientId : string;
  qrCodeId : string;
  scannedBy : string;
  sr_dailyProcessId : string;
  sr_temperature : JsonValue;
  sr_destinationLineId : JsonValue;
  sr_transactionType : JsonValue;
  scannedAt : Z
}.

(** The tables the handler touches.  A table that is only ever addressed
    through a unique column is a finite map on that column: [profiles] on
    [userId], [lines], [patients], [services] and [medicationProcesses] on
    [id], [qrCodes] on [qrId].  [dailyProcesses] is scanned with a filter and
    an ordering, and [qrScanRecords] is only appended to; both are lists. *)
Record Store := {
  profiles : gmap string Profile;
  lines : gmap string Line;
  qrCodes : gmap string QRCode;
  dailyProcesses : list DailyProcess;
  patients : gmap string Patient;
  services : gmap string Service;
  medicationProcesses : gmap string MedicationProcess;
  qrScanRecords : list QRScanRecord
}.

Definition set_medicationProcesses (m : gmap string MedicationProcess) (s : Store) : Store :=
  {| profiles := profiles s; lines := lines s; qrCodes := qrCodes s;
     dailyProcesses := dailyProcesses s; patients := patients s;
     services := services s; medicationProcesses := m;
     qrScanRecords := qrScanRecords s |}.

Definition set_qrScanRecords (l : list QRScanRecord) (s : Store) : Store :=
  {| profiles := profiles s; lines := lines s; qrCodes := qrCodes s;
     dailyProcesses := dailyProcesses s; patients := patients s;
     services := services s; medicationProcesses := medicationProcesses s;
     qrScanRecords := l |}.

(** ** The request and its environment *)

(** Result of [supabase.auth.getSession()]: the session's user, if any, and
    whether the call reported an error. *)
Record AuthResult := {
  session_user : option User;
  auth_error : bool
}.

Record RequestBody := {
  qrId : JsonValue;
  temperature : JsonValue;
  destinationLineId : JsonValue;
  transactionType : JsonValue
}.

(** [req_body] is [None] when [request.json()] rejects or yields [null], on
    which the destructuring throws. *)
Record Request := {
  auth : AuthResult;
  req_body : option RequestBody
}.

(** The server clock and its time zone.  All [new Date()] readings of one
    request are taken at the same instant [now].  [LocalTZA t isUTC] is the
    local time zone adjustment of ECMAScript, in milliseconds: the offset of
    local time from UTC at the UTC instant [t] when [isUTC] is [true], and at
    the local time value [t] when it is [false].  It is whatever the host's
    zone rules make it, daylight-saving changes included. *)
Record Clock := {
  now : Z;
  LocalTZA : Z -> bool -> Z
}.

(** Which store writes raise in a run: position [i] of the array handed to
    [Promise.all], for the status updates and for the scan-record inserts.
    The reads of lines 18-105 are taken to go through. *)
Record Faults := {
  update_throws : nat -> bool;
  create_throws : nat -> bool
}.

Definition no_faults : Faults :=
  {| update_throws := fun _ => false; create_throws := fun _ => false |}.

(** ** Responses *)

Inductive Body :=
| ErrorBody (error : string)
| ErrorMessageBody (error message : string)
| SuccessBody (message : string) (patientsCount : nat)
    (selectedLine : string) (nextStep : string).

Record Response := {
  resp_body : Body;
  resp_status : Z
}.

(** [NextResponse.json(body, { status })]; the status defaults to 200. *)
Definition json (b : Body) (st : Z) : Response :=
  {| resp_body := b; resp_status := st |}.

(** Control flow of the handler body: an early [return], an exception, or a
    value to go on with. *)
Inductive Outcome (A : Type) :=
| Return (r : Response)
| Throw
| Continue (a : A).

Arguments Return {A} r.
Arguments Throw {A}.
Arguments Continue {A} a.

#[global] Instance Outcome_bind : MBind Outcome := fun A B k o =>
  match o with
  | Return r => Return r
  | Throw => Throw
  | Continue a => k a
  end.

(** [if (c) return r;] *)
Definition return_if (c : bool) (r : Response) : Outcome unit :=
  if c then Return r else Continue tt.

(** [if (!x) return r;] for a looked-up row [x]. *)
Definition require {A : Type} (x : option A) (r : Response) : Outcome A :=
  match x with
  | Some a => Continue a
  | None => Return r
  end.

Definition Unauthorized : Response := json (ErrorBody "Unauthorized") 401.
Definition ProfileNotFound : Response := json (ErrorBody "Profile not found") 404.
Definition QrIdRequired : Response := json (ErrorBody "QR ID is required") 400.
Definition TemperatureRequired : Response := json (ErrorBody "Temperature is required") 400.
Definition DestinationLineRequired : Response :=
  json (ErrorBody "Destination line is required") 400.
Definition TransactionTypeRequired : Response :=
  json (ErrorBody "Transaction type is required") 400.
Definition InvalidDestinationLine : Response :=
  json (ErrorBody "Invalid destination line") 400.
Definition InvalidQRCode : Response :=
  json (ErrorBody "Invalid or inactive devolution pharmacy dispatch QR code") 400.
Definition NoActiveDailyProcess : Response :=
  json (ErrorBody "No active daily process found") 400.
Definition NoDevolutionProcesses (l : Line) : Response :=
  json (ErrorMessageBody
          ("No hay pacientes con proceso de devolución activo en la línea " ++ displayName l)
          "Asegúrate de que los pacientes tengan el proceso de devolución iniciado por enfermería")
       400.
Definition InternalServerError : Response := json (ErrorBody "Internal server error") 500.

Definition nextStepHint : string :=
  "Escanear QR de Salida de Farmacia (Entregas) para completar el proceso de devolución".

Definition DispatchRegistered (n : nat) (l : Line) : Response :=
  json (SuccessBody
          ("Salida de farmacia (devolución) registrada para " ++ pretty n ++ " paciente"
             ++ (if (1 <? n)%nat then "s" else "") ++ " de la línea " ++ displayName l)
          n (displayName l) nextStepHint)
       200.

(** ** Store queries *)

#[global] Instance Q_eq_dec : EqDecision Q.
Proof. solve_decision. Defined.

#[global] Instance JsonValue_eq_dec : EqDecision JsonValue.
Proof. solve_decision. Defined.

(** [findUnique({ where: { <unique column>: key } })] on a table whose unique
    column is a [String], as every id of [schema.prisma] is: Prisma validates
    the query first and throws on a key that is not a string. *)
Definition findUnique {V : Type} (tbl : gmap string V) (key : JsonValue) : Outcome (option V) :=
  match key with
  | JString k => Continue (tbl !! k)
  | _ => Throw
  end.

Definition msPerDay : Z := 86400000.

(** [LocalTime(t)] and [UTC(t)] of ECMAScript. *)
Definition LocalTime (clk : Clock) (t : Z) : Z := t + LocalTZA clk t true.

Definition UTC (clk : Clock) (t : Z) : Z := t - LocalTZA clk t false.

(** [new Date().setHours(hour, min, sec, ms)], as ECMAScript defines it: the
    instant is taken to local time, its time within the day is replaced
    ([MakeDate(Day(t), MakeTime(hour, min, sec, ms))]) and the result is taken
    back to UTC.  Instants stay within the range of a [Date]. *)
Definition setHours (clk : Clock) (hour min sec ms : Z) : Z :=
  let t := LocalTime clk (now clk) in
  let date := t `div` msPerDay * msPerDay + (hour * 3600000 + min * 60000 + sec * 1000 + ms) in
  UTC clk date.

(** [new Date(new Date().setHours(0, 0, 0, 0))] *)
Definition startOfDay (clk : Clock) : Z := setHours clk 0 0 0 0.

(** [new Date(new Date().setHours(23, 59, 59, 999))] *)
Definition endOfDay (clk : Clock) : Z := setHours clk 23 59 59 999.

(** [{ date: { gte, lt } }] *)
Definition date_where (gte lt : Z) (d : DailyProcess) : Prop :=
  gte <= date d /\ date d < lt.

#[global] Instance date_where_dec gte lt d : Decision (date_where gte lt d).
Proof. unfold date_where. apply _. Defined.

(** Head of the rows ordered by [createdAt] descending; among rows created
    at the same instant the one met first in the table is kept. *)
Fixpoint latest_created (l : list DailyProcess) : option DailyProcess :=
  match l with
  | [] => None
  | d :: l' =>
      match latest_created l' with
      | None => Some d
      | Some e => if bool_decide (createdAt e <= createdAt d) then Some d else Some e
      end
  end.

(** [dailyProcess.findFirst({ where: { date: { gte, lt } }, orderBy: { createdAt: 'desc' } })] *)
Definition dailyProcess_findFirst (gte lt : Z) (tbl : list DailyProcess) : option DailyProcess :=
  latest_created (filter (date_where gte lt) tbl).

(** The line of a patient, through the relation [patient.service.lineId]. *)
Definition patient_lineId (s : Store) (pid : string) : option string :=
  p ← patients s !! pid; sv ← services s !! serviceId p; Some (lineId sv).

(** The [where] clause of the eligibility query. *)
Definition devolution_where (s : Store) (dpId : string) (line : JsonValue)
    (mp : MedicationProcess) : Prop :=
  dailyProcessId mp = dpId /\
  step mp = "DEVOLUCION" /\
  status mp = IN_PROGRESS /\
  JString <$> patient_lineId s (patientId mp) = Some line.

#[global] Instance devolution_where_dec s dpId line mp :
  Decision (devolution_where s dpId line mp).
Proof. unfold devolution_where. apply _. Defined.

(** [medicationProcess.findMany({ where: ... })]: the matching rows, each
    with its id. *)
Definition medicationProcess_findMany (s : Store) (dpId : string) (line : JsonValue)
    : list (string * MedicationProcess) :=
  map_to_list (filter (fun kv => devolution_where s dpId line kv.2) (medicationProcesses s)).

(** ** Store writes *)

Definition dispatched (at_ : Z) (mp : MedicationProcess) : MedicationProcess :=
  {| patientId := patientId mp; dailyProcessId := dailyProcessId mp; step := step mp;
     status := DISPATCHED_FROM_PHARMACY; updatedAt := at_ |}.

(** [medicationProcess.update({ where: { id }, data: { status, updatedAt } })].
    The write is keyed by the id alone.  It rejects when the store call
    fails ([throws]) or when no row has that id. *)
Definition medicationProcess_update (throws : bool) (at_ : Z) (id : string) (s : Store)
    : option (string * MedicationProcess) * Store :=
  if throws then (None, s)
  else
    match medicationProcesses s !! id with
    | None => (None, s)
    | Some mp =>
        (Some (id, dispatched at_ mp),
         set_medicationProcesses (<[id := dispatched at_ mp]> (medicationProcesses s)) s)
    end.

(** [qRScanRecord.create({ data })] *)
Definition qRScanRecord_create (throws : bool) (data : QRScanRecord) (s : Store)
    : option unit * Store :=
  if throws then (None, s)
  else (Some tt, set_qrScanRecords (qrScanRecords s ++ [data]) s).

(** [await Promise.all(xs.map(async (x) => await op(x)))]: every call is
    issued, the store sees the effect of each one that goes through, and the
    whole rejects as soon as one of them rejects. *)
Fixpoint promise_all {A B : Type} (op : nat -> A -> Store -> option B * Store)
    (i : nat) (xs : list A) (s : Store) : option (list B) * Store :=
  match xs with
  | [] => (Some [], s)
  | x :: xs' =>
      let '(r, s1) := op i x s in
      let '(rs, s2) := promise_all op (S i) xs' s1 in
      (match r, rs with
       | Some b, Some bs => Some (b :: bs)
       | _, _ => None
       end, s2)
  end.

(** ** The handler *)

(** What the handler has in hand once every check has passed: the values
    bound by lines 9-112 that lines 116-164 use. *)
Record Plan := {
  plan_user : User;
  plan_body : RequestBody;
  selectedLine : Line;
  qrCode : QRCode;
  currentDailyProcess : DailyProcess;
  devolutionProcesses : list (string * MedicationProcess)
}.

(** Lines 9-112: authentication, validation of the body and the reads.
    Nothing is written here. *)
Definition POST_resolve (clk : Clock) (s : Store) (req : Request) : Outcome Plan :=
  user ← (if auth_error (auth req) then Return Unauthorized
          else require (session_user (auth req)) Unauthorized);
  _ ← require (profiles s !! user_id user) ProfileNotFound;
  body ← (match req_body req with Some b => Continue b | None => Throw end);
  _ ← return_if (negb (truthy (qrId body))) QrIdRequired;
  _ ← return_if (nullish (temperature body)) TemperatureRequired;
  _ ← return_if (negb (truthy (destinationLineId body))) DestinationLineRequired;
  _ ← return_if (negb (truthy (transactionType body))) TransactionTypeRequired;
  line ← findUnique (lines s) (destinationLineId body);
  line ← require line InvalidDestinationLine;
  qr ← findUnique (qrCodes s) (qrId body);
  qr ← (match qr with
        | Some q =>
            if isActive q && String.eqb (qr_type q) "PHARMACY_DISPATCH_DEVOLUTION"
            then Continue q else Return InvalidQRCode
        | None => Return InvalidQRCode
        end);
  dp ← require (dailyProcess_findFirst (startOfDay clk) (endOfDay clk) (dailyProcesses s))
         NoActiveDailyProcess;
  let found := medicationProcess_findMany s (dp_id dp) (destinationLineId body) in
  _ ← return_if (length found =? 0)%nat (NoDevolutionProcesses line);
  Continue {| plan_user := user; plan_body := body; selectedLine := line; qrCode := qr;
              currentDailyProcess := dp; devolutionProcesses := found |}.

(** The row written for one updated process (lines 144-153). *)
Definition scan_record (clk : Clock) (pl : Plan) (process : string * MedicationProcess)
    : QRScanRecord :=
  {| sr_patientId := patientId process.2;
     qrCodeId := qr_id (qrCode pl);
     scannedBy := user_id (plan_user pl);
     sr_dailyProcessId := dp_id (currentDailyProcess pl);
     sr_temperature := temperature (plan_body pl);
     sr_destinationLineId := destinationLineId (plan_body pl);
     sr_transactionType := transactionType (plan_body pl);
     scannedAt := now clk |}.

(** Lines 116-138: [Promise.all] over the status updates, numbered from [i]. *)
Definition update_all (f : Faults) (at_ : Z) (i : nat)
    (ps : list (string * MedicationProcess)) (s : Store)
    : option (list (string * MedicationProcess)) * Store :=
  promise_all (fun j process => medicationProcess_update (update_throws f j) at_ process.1)
    i ps s.

(** Lines 141-156: [Promise.all] over the scan-record inserts. *)
Definition create_all (f : Faults) (clk : Clock) (pl : Plan) (i : nat)
    (ps : list (string * MedicationProcess)) (s : Store) : option (list unit) * Store :=
  promise_all (fun j process =>
                 qRScanRecord_create (create_throws f j) (scan_record clk pl process))
    i ps s.

(** Lines 116-164: the status updates, then the scan records, then the
    report.  A rejected [Promise.all] lands in the [catch] of line 166. *)
Definition POST_commit (f : Faults) (clk : Clock) (pl : Plan) (s : Store) : Response * Store :=
  let '(updated, s1) := update_all f (now clk) 0 (devolutionProcesses pl) s in
  match updated with
  | None => (InternalServerError, s1)
  | Some updatedProcesses =>
      let '(created, s2) := create_all f clk pl 0 updatedProcesses s1 in
      match created with
      | None => (InternalServerError, s2)
      | Some _ => (DispatchRegistered (length updatedProcesses) (selectedLine pl), s2)
      end
  end.

(** What becomes of the handler once its reads are done: the early response,
    the [catch] of line 166, or the write phase. *)
Definition POST_finish (f : Faults) (clk : Clock) (o : Outcome Plan) (s : Store)
    : Response * Store :=
  match o with
  | Return r => (r, s)
  | Throw => (InternalServerError, s)
  | Continue pl => POST_commit f clk pl s
  end.

(** [export async function POST(request)] *)
Definition POST (f : Faults) (clk : Clock) (s : Store) (req : Request) : Response * Store :=
  POST_finish f clk (POST_resolve clk s req) s.

(** Two requests in flight at once, in the schedule where both have finished
    their reads before either starts to write: both resolve against the same
    store, then the first one's writes land, then the second one's. *)
Definition POST_race (f1 f2 : Faults) (clk1 clk2 : Clock) (s : Store) (req1 req2 : Request)
    : Response * Response * Store :=
  let o1 := POST_resolve clk1 s req1 in
  let o2 := POST_resolve clk2 s req2 in
  let '(r1, s1) := POST_finish f1 clk1 o1 s in
  let '(r2, s2) := POST_finish f2 clk2 o2 s1 in
  (r1, r2, s2).

(** ** Writes of several calls, one at a time *)

(** One store write of a call: a status update of lines 118-123, at the
    call's timestamp, or a scan-record insert of lines 143-154. *)
Inductive Op :=
| OpUpdate (id : string) (at_ : Z)
| OpCreate (data : QRScanRecord).

Definition apply_op (o : Op) (s : Store) : Store :=
  match o with
  | OpUpdate id at_ => (medicationProcess_update false at_ id s).2
  | OpCreate data => (qRScanRecord_create false data s).2
  end.

(** The store after a sequence of writes, whichever calls they come from. *)
Fixpoint run_ops (ops : list Op) (s : Store) : Store :=
  match ops with
  | [] => s
  | o :: ops' => run_ops ops' (apply_op o s)
  end.

(** The updates and the inserts a call issues for its eligible rows. *)
Definition updates_of (clk : Clock) (pl : Plan) : list Op :=
  (fun p => OpUpdate p.1 (now clk)) <$> devolutionProcesses pl.

Definition inserts_of (clk : Clock) (pl : Plan) : list Op :=
  (fun p => OpCreate (scan_record clk pl p)) <$> devolutionProcesses pl.

(** [ops] is a sequence in which the writes of a call can land when none of
    them fails: its updates in any order of completion, then, the first
    [Promise.all] having resolved, its inserts in any order of completion. *)
Definition writes_of (clk : Clock) (pl : Plan) (ops : list Op) : Prop :=
  exists us cs, ops = (us ++ cs)%list /\ us ≡ₚ updates_of clk pl /\ cs ≡ₚ inserts_of clk pl.

(** The scan records a sequence of writes inserts, in order. *)
Definition inserted (ops : list Op) : list QRScanRecord :=
  omap (fun o => match o with OpCreate data => Some data | OpUpdate _ _ => None end) ops.

(** The writes of two calls merged: [sched] says at each step whether the
    next write is the first call's ([true]) or the second's. *)
Fixpoint weave {A : Type} (sched : list bool) (l1 l2 : list A) : list A :=
  match sched with
  | [] => (l1 ++ l2)%list
  | true :: sched' =>
      match l1 with
      | [] => l2
      | x :: l1' => x :: weave sched' l1' l2
      end
  | false :: sched' =>
      match l2 with
      | [] => l1
      | y :: l2' => y :: weave sched' l1 l2'
      end
  end.

(** ** Vocabulary of the statements *)

(** The elements of [xs] whose position, counted from [i], does not throw. *)
Fixpoint survivors {A : Type} (throws : nat -> bool) (i : nat) (xs : list A) : list A :=
  match xs with
  | [] => []
  | x :: xs' =>
      if throws i then survivors throws (S i) xs' else x :: survivors throws (S i) xs'
  end.

(** No position among [i, ..., i + n - 1] throws. *)
Definition none_throws (throws : nat -> bool) (i n : nat) : bool :=
  forallb (fun j => negb (throws j)) (seq i n).

(** The request gets past lines 13-42: a signed-in user with a profile and a
    body in which the four fields are present. *)
Definition accepted (s : Store) (req : Request) (user : User) (body : RequestBody) : Prop :=
  auth_error (auth req) = false /\
  session_user (auth req) = Some user /\
  is_Some (profiles s !! user_id user) /\
  req_body req = Some body /\
  truthy (qrId body) = true /\
  nullish (temperature body) = false /\
  truthy (destinationLineId body) = true /\
  truthy (transactionType body) = true.

(** The test of line 61 lets the QR code through. *)
Definition valid_qr (q : QRCode) : Prop :=
  isActive q = true /\ qr_type q = "PHARMACY_DISPATCH_DEVOLUTION".

(** The request gets past lines 13-78: it is accepted and the line, the QR
    code and today's daily process are found. *)
Definition resolved (clk : Clock) (s : Store) (req : Request) (user : User)
    (body : RequestBody) (line : Line) (qr : QRCode) (dp : DailyProcess) : Prop :=
  accepted s req user body /\
  findUnique (lines s) (destinationLineId body) = Continue (Some line) /\
  findUnique (qrCodes s) (qrId body) = Continue (Some qr) /\
  valid_qr qr /\
  dailyProcess_findFirst (startOfDay clk) (endOfDay clk) (dailyProcesses s) = Some dp.

(** The rows of [ps] are in the store, up to the two columns the update
    overwrites. *)
Definition rows_current (s : Store) (ps : list (string * MedicationProcess)) : Prop :=
  forall id mp, (id, mp) ∈ ps ->
    exists mp0, medicationProcesses s !! id = Some mp0 /\
                forall t, dispatched t mp0 = dispatched t mp.

(** ** A small ward, used to run the handler on concrete inputs *)

Module Ward.

(** A server on UTC. *)
Definition utc : Z -> bool -> Z := fun _ _ => 0.

Definition clock : Clock := {| now := 1800000000000; LocalTZA := utc |}.

Definition today : DailyProcess :=
  {| dp_id := "dp-today"; date := 1799971200000; createdAt := 1799971260000 |}.

Definition in_devolution (patient : string) : MedicationProcess :=
  {| patientId := patient; dailyProcessId := "dp-today"; step := "DEVOLUCION";
     status := IN_PROGRESS; updatedAt := 1799990000000 |}.

Definition in_dispensation (patient : string) : MedicationProcess :=
  {| patientId := patient; dailyProcessId := "dp-today"; step := "DISPENSACION";
     status := IN_PROGRESS; updatedAt := 1799990000000 |}.

(** Three patients of line 2 and one of line 1 have a devolution in
    progress; the patient of line 3 has none, only a dispensation. *)
Definition store : Store :=
  {| profiles := {[ "user-1" := {| profile_id := "profile-1" |} ]};
     lines := {[ "line-1" := {| displayName := "Línea 1" |};
                 "line-2" := {| displayName := "Línea 2" |};
                 "line-3" := {| displayName := "Línea 3" |} ]};
     qrCodes := {[ "QR-DEV" := {| qr_id := "qr-1"; isActive := true;
                                  qr_type := "PHARMACY_DISPATCH_DEVOLUTION" |};
                   "QR-OFF" := {| qr_id := "qr-2"; isActive := false;
                                  qr_type := "PHARMACY_DISPATCH_DEVOLUTION" |} ]};
     dailyProcesses := [today];
     patients := {[ "pat-1" := {| serviceId := "svc-2" |};
                    "pat-2" := {| serviceId := "svc-2" |};
                    "pat-3" := {| serviceId := "svc-2" |};
                    "pat-4" := {| serviceId := "svc-3" |};
                    "pat-5" := {| serviceId := "svc-1" |} ]};
     services := {[ "svc-1" := {| lineId := "line-1" |};
                    "svc-2" := {| lineId := "line-2" |};
                    "svc-3" := {| lineId := "line-3" |} ]};
     medicationProcesses := {[ "mp-1" := in_devolution "pat-1";
                               "mp-2" := in_devolution "pat-2";
                               "mp-3" := in_devolution "pat-3";
                               "mp-4" := in_dispensation "pat-4";
                               "mp-5" := in_dispensation "pat-1";
                               "mp-6" := in_devolution "pat-5" ]};
     qrScanRecords := [] |}.

Definition signed_in (uid : string) : AuthResult :=
  {| session_user := Some {| user_id := uid |}; auth_error := false |}.

Definition scan (token line : string) (temp : JsonValue) : Request :=
  {| auth := signed_in "user-1";
     req_body := Some {| qrId := JString token; temperature := temp;
                         destinationLineId := JString line;
                         transactionType := JString "DEVOLUCION" |} |}.

Definition scan_line1 : Request := scan "QR-DEV" "line-1" (JNumber (4 # 1)).
Definition scan_line2 : Request := scan "QR-DEV" "line-2" (JNumber (4 # 1)).
Definition scan_line3 : Request := scan "QR-DEV" "line-3" (JNumber (4 # 1)).

(** The day's batch was opened a second time, later in the morning; the
    batch of the day before is still in the table. *)
Definition reopened : DailyProcess :=
  {| dp_id := "dp-reopened"; date := 1799971200000; createdAt := 1799990000000 |}.

Definition yesterday : DailyProcess :=
  {| dp_id := "dp-yesterday"; date := 1799884800000; createdAt := 1799999000000 |}.

Definition store_reopened : Store :=
  {| profiles := profiles store; lines := lines store; qrCodes := qrCodes store;
     dailyProcesses := [today; reopened; yesterday];
     patients := patients store; services := services store;
     medicationProcesses := <[ "mp-7" := {| patientId := "pat-4"; dailyProcessId := "dp-reopened";
                                            step := "DEVOLUCION"; status := IN_PROGRESS;
                                            updatedAt := 1799990000000 |} ]>
                              (medicationProcesses store);
     qrScanRecords := [] |}.

(** The next day's batch is in the table already, with a devolution in
    progress for a patient of line 2; one call comes a second before
    midnight, the next a tenth of a second after it. *)
Definition tomorrow : DailyProcess :=
  {| dp_id := "dp-tomorrow"; date := 1800057600000; createdAt := 1800050000000 |}.

Definition store_overnight : Store :=
  {| profiles := profiles store; lines := lines store; qrCodes := qrCodes store;
     dailyProcesses := [today; tomorrow];
     patients := patients store; services := services store;
     medicationProcesses := <[ "mp-8" := {| patientId := "pat-2"; dailyProcessId := "dp-tomorrow";
                                            step := "DEVOLUCION"; status := IN_PROGRESS;
                                            updatedAt := 1800050000000 |} ]>
                              (medicationProcesses store);
     qrScanRecords := [] |}.

(** A second batch of the day, created after [today] and dated at the last
    millisecond of the day, 23:59:59.999, with a devolution in progress for
    a patient of line 2. *)
Definition closing : DailyProcess :=
  {| dp_id := "dp-closing"; date := 1800057599999; createdAt := 1799980000000 |}.

Definition store_closing : Store :=
  {| profiles := profiles store; lines := lines store; qrCodes := qrCodes store;
     dailyProcesses := [today; closing];
     patients := patients store; services := services store;
     medicationProcesses := <[ "mp-9" := {| patientId := "pat-2"; dailyProcessId := "dp-closing";
                                            step := "DEVOLUCION"; status := IN_PROGRESS;
                                            updatedAt := 1799990000000 |} ]>
                              (medicationProcesses store);
     qrScanRecords := [] |}.

(** The zone rules of New York around the night of 1 November 2026, on
    which daylight time ends at 06:00 UTC, 02:00 local daylight time; a local
    time met twice that night counts as daylight time. *)
Definition new_york : Z -> bool -> Z := fun t isUTC =>
  if isUTC
  then (if (t <? 1793512800000)%Z then -14400000 else -18000000)
  else (if (t <? 1793498400000)%Z then -14400000 else -18000000).

Definition new_york_morning : Clock := {| now := 1793541600000; LocalTZA := new_york |}.

Definition before_midnight : Clock := {| now := 1800057599000; LocalTZA := utc |}.

Definition after_midnight : Clock := {| now := 1800057600100; LocalTZA := utc |}.


(** A temperature that is not a number. *)
Definition scan_hot : Request := scan "QR-DEV" "line-1" (JString "hot").

(** Half a second after [clock], on the same day. *)
Definition later : Clock := {| now := 1800000000500; LocalTZA := utc |}.

Definition inserts_fail : Faults :=
  {| update_throws := fun _ => false; create_throws := fun _ => true |}.

Definition second_update_fails : Faults :=
  {| update_throws := fun j => bool_decide (j = 1%nat); create_throws := fun _ => false |}.

(** The plan the handler arrives at for [scan_line2]. *)
Definition plan_line2 : Plan :=
  {| plan_user := {| user_id := "user-1" |};
     plan_body := {| qrId := JString "QR-DEV"; temperature := JNumber (4 # 1);
                     destinationLineId := JString "line-2";
                     transactionType := JString "DEVOLUCION" |};
     selectedLine := {| displayName := "Línea 2" |};
     qrCode := {| qr_id := "qr-1"; isActive := true;
                  qr_type := "PHARMACY_DISPATCH_DEVOLUTION" |};
     currentDailyProcess := today;
     devolutionProcesses :=
       medicationProcess_findMany store "dp-today" (JString "line-2") |}.

(** The writes of that call in the order the handler issues them, and a
    second call for the same line that runs its query after the first of
    them. *)
Definition writes_line2 : list Op :=
  (updates_of clock plan_line2 ++ inserts_of clock plan_line2)%list.

Definition plan_line2_late : Plan :=
  {| plan_user := {| user_id := "user-1" |};
     plan_body := {| qrId := JString "QR-DEV"; temperature := JNumber (4 # 1);
                     destinationLineId := JString "line-2";
                     transactionType := JString "DEVOLUCION" |};
     selectedLine := {| displayName := "Línea 2" |};
     qrCode := {| qr_id := "qr-1"; isActive := true;
                  qr_type := "PHARMACY_DISPATCH_DEVOLUTION" |};
     currentDailyProcess := today;
     devolutionProcesses :=
       medicationProcess_findMany (run_ops (take 1 writes_line2) store)
         "dp-today" (JString "line-2") |}.

Definition writes_line2_late : list Op :=
  (updates_of later plan_line2_late ++ inserts_of later plan_line2_late)%list.

(** Whose write lands next: the second call's, the first call's, and so on. *)
Definition turns : list bool := [false; true; false; true; true; false; true; false].

End Ward.

(** A signed-in user with a Profile row: the request gets past lines 13-24. *)
Definition signed_in_with_profile (s : Store) (req : Request) : Prop :=
  auth_error (auth req) = false /\
  exists user, session_user (auth req) = Some user /\ is_Some (profiles s !! user_id user).

(** * The health check

    Source: the [GET] handler of the health route.  It probes the database
    with [SELECT 1] and reports the result. *)

Module Health.

(** Outcome of [await prisma.$queryRaw`SELECT 1`]: it resolves, or it throws
    an [Error] with the given message. *)
Inductive Probe :=
| Connected
| Failed (message : string).

(** The JSON body; [timestamp] is the instant whose ISO rendering the handler
    sends, and [error] is absent from the healthy answer. *)
Record Body := {
  status : string;
  timestamp : Z;
  database : string;
  error : option string
}.

Record Response := {
  body : Body;
  http_status : Z
}.

(** [export async function GET()]; [node_env] is [process.env.NODE_ENV]. *)
Definition GET (node_env : option string) (now : Z) (probe : Probe) : Response :=
  match probe with
  | Connected =>
      {| body := {| status := "healthy"; timestamp := now; database := "connected";
                    error := None |};
         http_status := 200 |}
  | Failed message =>
      {| body := {| status := "unhealthy"; timestamp := now; database := "disconnected";
                    error := Some (if bool_decide (node_env = Some "development")
                                   then message else "Internal error") |};
         http_status := 503 |}
  end.

End Health.

(** * The mutation hooks of the client

    Source: [src/hooks/use-medication-processes.ts], the [mutationFn] of
    [useCreateMedicationProcess] and of [useUpdateMedicationProcess], from
    the point where [fetch] has settled. *)

Module Hooks.

(** What [response.json()] resolves to, as far as the hooks look at it:
    [null], on which reading a property throws; a boolean, number or string,
    whose property [error] is undefined; an object or array, with the value
    of its property [error] ([JUndefined] when it has none). *)
Inductive Parsed :=
| PNull
| PScalar (v : JsonValue)
| PObject (error : JsonValue).

(** A settled [fetch]: the status of the response and what [response.json()]
    does, [None] when it rejects. *)
Record FetchResponse := {
  status : Z;
  json : option Parsed
}.

(** [response.ok] *)
Definition ok (r : FetchResponse) : bool :=
  ((200 <=? status r) && (status r <=? 299))%Z.

(** Why a [mutationFn] rejects: an [Error] the hook builds, [new Error(arg)],
    or something else -- the rejection of [fetch] or of [response.json()], or
    the [TypeError] of reading a property of [null]. *)
Inductive Reason :=
| ErrorWith (arg : JsonValue)
| Other.

Inductive Settled :=
| Resolved (data : Parsed)
| Rejected (reason : Reason).

(** [await response.json().catch(() => ({ error: "Unknown error" }))] *)
Definition errorData (r : FetchResponse) : Parsed :=
  match json r with
  | Some p => p
  | None => PObject (JString "Unknown error")
  end.

(** [throw new Error(errorData.error || fallback)] *)
Definition throw_error_of (p : Parsed) (fallback : string) : Settled :=
  match p with
  | PNull => Rejected Other
  | PScalar _ => Rejected (ErrorWith (JString fallback))
  | PObject e => Rejected (ErrorWith (if truthy e then e else JString fallback))
  end.

(** [return response.json()] *)
Definition return_json (r : FetchResponse) : Settled :=
  match json r with
  | Some p => Resolved p
  | None => Rejected Other
  end.

(** [mutationFn] of [useCreateMedicationProcess]; [fetched] is [None] when
    [fetch] itself rejects. *)
Definition createMutationFn (fetched : option FetchResponse) : Settled :=
  match fetched with
  | None => Rejected Other
  | Some response =>
      if negb (ok response) then
        let errorData := errorData response in
        if (status response =? 409)%Z then
          Rejected (ErrorWith (JString
            "Ya existe un proceso para este paciente y paso. Actualizando vista..."))
        else if (status response =? 403)%Z then
          Rejected (ErrorWith (JString "No tienes permisos para crear este proceso."))
        else if (status response =? 401)%Z then
          Rejected (ErrorWith (JString
            "Sesión expirada. Por favor, inicia sesión nuevamente."))
        else if (status response =? 400)%Z then
          Rejected (ErrorWith (JString "Datos inválidos para crear el proceso."))
        else throw_error_of errorData "Error al crear el proceso de medicación"
      else return_json response
  end.

(** [mutationFn] of [useUpdateMedicationProcess]. *)
Definition updateMutationFn (fetched : option FetchResponse) : Settled :=
  match fetched with
  | None => Rejected Other
  | Some response =>
      if negb (ok response) then
        let errorData := errorData response in
        if (status response =? 404)%Z then
          Rejected (ErrorWith (JString
            "El proceso no fue encontrado. Puede haber sido eliminado o modificado por otro usuario."))
        else if (status response =? 403)%Z then
          Rejected (ErrorWith (JString "No tienes permisos para realizar esta acción."))
        else if (status response =? 401)%Z then
          Rejected (ErrorWith (JString
            "Sesión expirada. Por favor, inicia sesión nuevamente."))
        else throw_error_of errorData "Error al actualizar el proceso de medicación"
      else return_json response
  end.

End Hooks.

(** * Properties *)

(** ** Reading the store *)

Lemma findMany_spec s dpId line id mp :
  (id, mp) ∈ medicationProcess_findMany s dpId line <->
  medicationProcesses s !! id = Some mp /\ devolution_where s dpId line mp.
Proof.
  unfold medicationProcess_findMany.
  rewrite elem_of_map_to_list, map_lookup_filter_Some. reflexivity.
Qed.

Lemma findMany_NoDup s dpId line :
  NoDup (medicationProcess_findMany s dpId line).*1.
Proof. apply NoDup_fst_map_to_list. Qed.

Lemma findMany_rows_current s dpId line :
  rows_current s (medicationProcess_findMany s dpId line).
Proof.
  intros id mp Hin. apply findMany_spec in Hin as [Hl _]. eauto.
Qed.

Lemma findMany_nil s dpId line :
  (forall id mp, medicationProcesses s !! id = Some mp -> ~ devolution_where s dpId line mp) ->
  medicationProcess_findMany s dpId line = [].
Proof.
  intros H. unfold medicationProcess_findMany.
  apply map_to_list_empty_iff, map_empty. intros id.
  apply map_lookup_filter_None. right. intros mp Hl. apply (H id mp Hl).
Qed.

Lemma latest_created_In l d : latest_created l = Some d -> d ∈ l.
Proof.
  revert d. induction l as [|x l IH]; intros d; simpl; [discriminate|].
  destruct (latest_created l) as [e|].
  - case_bool_decide; intros [= <-]; [left | right; auto].
  - intros [= <-]. left.
Qed.

Lemma latest_created_max l d e :
  latest_created l = Some d -> e ∈ l -> createdAt e <= createdAt d.
Proof.
  revert d. induction l as [|x l IH]; intros d; simpl; [discriminate|].
  intros Hd He. destruct (latest_created l) as [m|] eqn:Hm.
  - specialize (IH m eq_refl).
    apply elem_of_cons in He as [->|He].
    + case_bool_decide; injection Hd as <-; lia.
    + specialize (IH He). case_bool_decide; injection Hd as <-; lia.
  - injection Hd as <-. destruct l as [|y l].
    + apply elem_of_cons in He as [->|He]; [lia | inversion He].
    + simpl in Hm. destruct (latest_created l); [case_bool_decide|]; discriminate.
Qed.

Lemma latest_created_Some l : l <> [] -> is_Some (latest_created l).
Proof.
  destruct l as [|x l]; [congruence|]. intros _. simpl.
  destruct (latest_created l); [case_bool_decide|]; eauto.
Qed.

(** ** Writing the store *)

Lemma dispatched_idem t t' mp : dispatched t (dispatched t' mp) = dispatched t mp.
Proof. reflexivity. Qed.

Lemma set_medicationProcesses_id s : set_medicationProcesses (medicationProcesses s) s = s.
Proof. destruct s; reflexivity. Qed.

Lemma set_qrScanRecords_id s : set_qrScanRecords (qrScanRecords s) s = s.
Proof. destruct s; reflexivity. Qed.

Lemma update_lookup b t k s id :
  medicationProcesses (medicationProcess_update b t k s).2 !! id =
  if bool_decide (b = false /\ k = id)
  then dispatched t <$> medicationProcesses s !! id
  else medicationProcesses s !! id.
Proof.
  unfold medicationProcess_update. destruct b; simpl.
  { reflexivity. }
  destruct (medicationProcesses s !! k) as [mp|] eqn:Hk; simpl.
  - case_bool_decide as Hd.
    + destruct Hd as [_ <-]. rewrite lookup_insert_eq, Hk. reflexivity.
    + rewrite lookup_insert_ne; [reflexivity | intros <-; apply Hd; auto].
  - case_bool_decide as Hd; [|reflexivity].
    destruct Hd as [_ <-]. rewrite Hk. reflexivity.
Qed.

Lemma update_frame b t k s :
  (medicationProcess_update b t k s).2 =
  set_medicationProcesses (medicationProcesses (medicationProcess_update b t k s).2) s.
Proof.
  unfold medicationProcess_update. destruct b; simpl.
  { symmetry. apply set_medicationProcesses_id. }
  destruct (medicationProcesses s !! k); simpl; [reflexivity|].
  symmetry. apply set_medicationProcesses_id.
Qed.

Lemma update_all_cons f t i x ps s :
  update_all f t i (x :: ps) s =
  let r := (medicationProcess_update (update_throws f i) t x.1 s).1 in
  let s1 := (medicationProcess_update (update_throws f i) t x.1 s).2 in
  (match r, (update_all f t (S i) ps s1).1 with
   | Some b, Some bs => Some (b :: bs)
   | _, _ => None
   end, (update_all f t (S i) ps s1).2).
Proof.
  unfold update_all; simpl.
  destruct (medicationProcess_update _ _ _ _) as [r s1]; simpl.
  destruct (promise_all _ _ _ _) as [rs s2]; reflexivity.
Qed.

Lemma update_all_frame f t ps : forall i s,
  (update_all f t i ps s).2 =
  set_medicationProcesses (medicationProcesses (update_all f t i ps s).2) s.
Proof.
  induction ps as [|x ps IH]; intros i s.
  - simpl. symmetry. apply set_medicationProcesses_id.
  - rewrite update_all_cons; simpl. rewrite IH at 1.
    rewrite update_frame. reflexivity.
Qed.

(** Whatever the faults, a row is either left as it was or dispatched. *)
Lemma update_all_lookup f t ps : forall i s id,
  medicationProcesses (update_all f t i ps s).2 !! id = medicationProcesses s !! id \/
  medicationProcesses (update_all f t i ps s).2 !! id =
    dispatched t <$> medicationProcesses s !! id.
Proof.
  induction ps as [|x ps IH]; intros i s id.
  - left; reflexivity.
  - rewrite update_all_cons; simpl.
    destruct (IH (S i) (medicationProcess_update (update_throws f i) t x.1 s).2 id)
      as [-> | ->]; rewrite update_lookup; case_bool_decide; auto.
    right. destruct (medicationProcesses s !! id); reflexivity.
Qed.

(** An update that went through is in the final store, whatever happened to
    the others. *)
Lemma update_all_hit f t ps : forall i s j p,
  ps !! j = Some p -> update_throws f (i + j) = false ->
  medicationProcesses (update_all f t i ps s).2 !! p.1 =
    dispatched t <$> medicationProcesses s !! p.1.
Proof.
  induction ps as [|x ps IH]; intros i s j p Hj Hok; [discriminate|].
  rewrite update_all_cons; simpl. destruct j as [|j]; simpl in Hj.
  - injection Hj as ->. rewrite Nat.add_0_r in Hok.
    destruct (update_all_lookup f t ps (S i)
                (medicationProcess_update (update_throws f i) t p.1 s).2 p.1) as [-> | ->];
      rewrite update_lookup, bool_decide_eq_true_2 by auto.
    + reflexivity.
    + destruct (medicationProcesses s !! p.1); reflexivity.
  - rewrite (IH (S i) _ j p Hj) by (rewrite <- Hok; f_equal; lia).
    rewrite update_lookup. case_bool_decide; [|reflexivity].
    destruct (medicationProcesses s !! p.1); reflexivity.
Qed.

(** A row that no successful update addresses is left as it was. *)
Lemma update_all_miss f t ps id : forall i s,
  (forall j p, ps !! j = Some p -> p.1 = id -> update_throws f (i + j) = true) ->
  medicationProcesses (update_all f t i ps s).2 !! id = medicationProcesses s !! id.
Proof.
  induction ps as [|x ps IH]; intros i s H; [reflexivity|].
  rewrite update_all_cons; simpl. rewrite IH.
  - rewrite update_lookup. case_bool_decide as Hd; [|reflexivity].
    destruct Hd as [Hf Hx]. specialize (H 0%nat x eq_refl Hx).
    rewrite Nat.add_0_r in H. congruence.
  - intros j p Hj Hp. specialize (H (S j) p Hj Hp).
    rewrite <- H. f_equal; lia.
Qed.

Lemma update_rows_current b t k s ps :
  rows_current s ps -> rows_current (medicationProcess_update b t k s).2 ps.
Proof.
  intros H id mp Hin. destruct (H id mp Hin) as (mp0 & Hl & Hd).
  rewrite update_lookup, Hl. case_bool_decide; simpl; eauto.
Qed.

Lemma update_all_rows_current f t qs i s ps :
  rows_current s ps -> rows_current (update_all f t i qs s).2 ps.
Proof.
  intros H id mp Hin. destruct (H id mp Hin) as (mp0 & Hl & Hd).
  destruct (update_all_lookup f t qs i s id) as [-> | ->]; rewrite Hl; simpl; eauto.
Qed.

Lemma rows_current_tail s x ps : rows_current s (x :: ps) -> rows_current s ps.
Proof. intros H id mp Hin. apply H. right. exact Hin. Qed.

(** The [Promise.all] of the updates resolves exactly when none of them
    throws, and then to the rows as dispatched. *)
Lemma update_all_result f t ps : forall i s,
  rows_current s ps ->
  (update_all f t i ps s).1 =
  if none_throws (update_throws f) i (length ps)
  then Some ((fun p => (p.1, dispatched t p.2)) <$> ps)
  else None.
Proof.
  induction ps as [|x ps IH]; intros i s H; [reflexivity|].
  rewrite update_all_cons; simpl.
  rewrite IH by (apply update_rows_current; eapply rows_current_tail; eauto).
  unfold none_throws; simpl. unfold medicationProcess_update.
  destruct (update_throws f i); simpl; [reflexivity|].
  destruct x as [id mp]. destruct (H id mp) as (mp0 & Hl & Hd); [left|].
  simpl. rewrite Hl; simpl. rewrite Hd.
  destruct (forallb _ _); reflexivity.
Qed.

Lemma update_all_scans f t i ps s :
  qrScanRecords (update_all f t i ps s).2 = qrScanRecords s.
Proof. rewrite update_all_frame. reflexivity. Qed.

Lemma create_all_cons f clk pl i x ps s :
  create_all f clk pl i (x :: ps) s =
  let r := (qRScanRecord_create (create_throws f i) (scan_record clk pl x) s).1 in
  let s1 := (qRScanRecord_create (create_throws f i) (scan_record clk pl x) s).2 in
  (match r, (create_all f clk pl (S i) ps s1).1 with
   | Some b, Some bs => Some (b :: bs)
   | _, _ => None
   end, (create_all f clk pl (S i) ps s1).2).
Proof.
  unfold create_all; simpl.
  destruct (qRScanRecord_create _ _ _) as [r s1]; simpl.
  destruct (promise_all _ _ _ _) as [rs s2]; reflexivity.
Qed.

(** The inserts that do not throw are appended, in order; nothing else moves. *)
Lemma create_all_store f clk pl ps : forall i s,
  (create_all f clk pl i ps s).2 =
  set_qrScanRecords
    (qrScanRecords s ++ (scan_record clk pl <$> survivors (create_throws f) i ps)) s.
Proof.
  induction ps as [|x ps IH]; intros i s.
  - simpl. rewrite app_nil_r. symmetry. apply set_qrScanRecords_id.
  - rewrite create_all_cons; simpl. rewrite IH.
    unfold qRScanRecord_create. destruct (create_throws f i); simpl; [reflexivity|].
    rewrite <- app_assoc. reflexivity.
Qed.

Lemma create_all_result f clk pl ps : forall i s,
  is_Some (create_all f clk pl i ps s).1 <->
  none_throws (create_throws f) i (length ps) = true.
Proof.
  induction ps as [|x ps IH]; intros i s.
  - simpl. split; eauto.
  - rewrite create_all_cons; simpl. unfold none_throws; simpl.
    specialize (IH (S i) (qRScanRecord_create (create_throws f i) (scan_record clk pl x) s).2).
    unfold none_throws in IH. rewrite andb_true_iff, <- IH.
    unfold qRScanRecord_create at 1. destruct (create_throws f i); simpl.
    + split; [intros [? ?]; discriminate | intros [? _]; discriminate].
    + destruct (create_all _ _ _ _ _ _).1; simpl.
      * split; eauto.
      * split; [intros [? ?]; discriminate | intros [_ ?]; assumption].
Qed.

Lemma survivors_fmap {A B : Type} (g : A -> B) throws xs : forall i,
  survivors throws i (g <$> xs) = g <$> survivors throws i xs.
Proof.
  induction xs as [|x xs IH]; intros i; simpl; [reflexivity|].
  destruct (throws i); simpl; rewrite IH; reflexivity.
Qed.

Lemma survivors_all {A : Type} throws (xs : list A) : forall i,
  none_throws throws i (length xs) = true -> survivors throws i xs = xs.
Proof.
  unfold none_throws. induction xs as [|x xs IH]; intros i; simpl; [reflexivity|].
  destruct (throws i); simpl; [discriminate|]. intros H. rewrite IH; auto.
Qed.

Lemma none_throws_no_faults i n :
  none_throws (fun _ => false) i n = true.
Proof. unfold none_throws. apply forallb_forall. reflexivity. Qed.

Lemma none_throws_spec throws i n :
  none_throws throws i n = true <-> forall j, (j < n)%nat -> throws (i + j)%nat = false.
Proof.
  unfold none_throws. rewrite forallb_forall. split.
  - intros H j Hj. apply negb_true_iff, H, in_seq. lia.
  - intros H j Hj%in_seq. apply negb_true_iff.
    replace j with (i + (j - i))%nat by lia. apply H. lia.
Qed.

(** ** The write phase as a whole *)

Lemma POST_commit_spec f clk pl s :
  rows_current s (devolutionProcesses pl) ->
  POST_commit f clk pl s =
  let ps := devolutionProcesses pl in
  let s1 := (update_all f (now clk) 0 ps s).2 in
  if none_throws (update_throws f) 0 (length ps) then
    (if none_throws (create_throws f) 0 (length ps)
     then DispatchRegistered (length ps) (selectedLine pl)
     else InternalServerError,
     set_qrScanRecords
       (qrScanRecords s ++ (scan_record clk pl <$> survivors (create_throws f) 0 ps)) s1)
  else (InternalServerError, s1).
Proof.
  intros Hcur. unfold POST_commit.
  pose proof (update_all_result f (now clk) (devolutionProcesses pl) 0 s Hcur) as Hres.
  destruct (update_all f (now clk) 0 (devolutionProcesses pl) s) as [updated s1] eqn:Hupd.
  simpl in *. subst updated.
  destruct (none_throws (update_throws f) 0 (length (devolutionProcesses pl))); [|reflexivity].
  set (ups := (fun p : string * MedicationProcess => (p.1, dispatched (now clk) p.2))
                <$> devolutionProcesses pl).
  pose proof (create_all_result f clk pl ups 0 s1) as Hcre.
  pose proof (create_all_store f clk pl ups 0 s1) as Hsto.
  destruct (create_all f clk pl 0 ups s1) as [created s2]. simpl in *. subst s2.
  assert (Hs1 : qrScanRecords s1 = qrScanRecords s).
  { replace s1 with (update_all f (now clk) 0 (devolutionProcesses pl) s).2
      by (rewrite Hupd; reflexivity). apply update_all_scans. }
  assert (Hrec : scan_record clk pl <$> survivors (create_throws f) 0 ups =
                 scan_record clk pl <$> survivors (create_throws f) 0 (devolutionProcesses pl)).
  { unfold ups. rewrite survivors_fmap, <- list_fmap_compose. reflexivity. }
  rewrite Hs1, Hrec. unfold ups in *. rewrite length_fmap in *.
  destruct (none_throws (create_throws f) 0 (length (devolutionProcesses pl))).
  - destruct created; [reflexivity|]. destruct Hcre as [_ Hc]. destruct Hc; auto; discriminate.
  - destruct created; [|reflexivity]. destruct Hcre as [Hc _]. discriminate Hc. eauto.
Qed.

(** ** The read phase *)

Lemma POST_resolve_accepted clk s req user body :
  accepted s req user body ->
  POST_resolve clk s req =
  (line ← findUnique (lines s) (destinationLineId body);
   line ← require line InvalidDestinationLine;
   qr ← findUnique (qrCodes s) (qrId body);
   qr ← (match qr with
         | Some q =>
             if isActive q && String.eqb (qr_type q) "PHARMACY_DISPATCH_DEVOLUTION"
             then Continue q else Return InvalidQRCode
         | None => Return InvalidQRCode
         end);
   dp ← require (dailyProcess_findFirst (startOfDay clk) (endOfDay clk) (dailyProcesses s))
          NoActiveDailyProcess;
   let found := medicationProcess_findMany s (dp_id dp) (destinationLineId body) in
   _ ← return_if (length found =? 0)%nat (NoDevolutionProcesses line);
   Continue {| plan_user := user; plan_body := body; selectedLine := line; qrCode := qr;
               currentDailyProcess := dp; devolutionProcesses := found |}).
Proof.
  intros (He & Hu & [pr Hp] & Hb & Hq & Ht & Hl & Hx).
  unfold POST_resolve. rewrite He, Hu; simpl. rewrite Hp; simpl.
  rewrite Hb; simpl. rewrite Hq, Ht, Hl, Hx; reflexivity.
Qed.

Lemma POST_resolve_resolved clk s req user body line qr dp :
  resolved clk s req user body line qr dp ->
  POST_resolve clk s req =
  let found := medicationProcess_findMany s (dp_id dp) (destinationLineId body) in
  if (length found =? 0)%nat then Return (NoDevolutionProcesses line)
  else Continue {| plan_user := user; plan_body := body; selectedLine := line; qrCode := qr;
                   currentDailyProcess := dp; devolutionProcesses := found |}.
Proof.
  intros (Ha & Hl & Hq & [Hact Hty] & Hd).
  rewrite (POST_resolve_accepted _ _ _ _ _ Ha), Hl; simpl. rewrite Hq; simpl.
  rewrite Hact, Hty; simpl. rewrite Hd; simpl.
  destruct (length _ =? 0)%nat; reflexivity.
Qed.

(** A request that reaches the write phase passed every check, and its plan
    holds what the reads returned. *)
Lemma POST_resolve_Continue clk s req pl :
  POST_resolve clk s req = Continue pl ->
  resolved clk s req (plan_user pl) (plan_body pl) (selectedLine pl) (qrCode pl)
    (currentDailyProcess pl) /\
  devolutionProcesses pl =
    medicationProcess_findMany s (dp_id (currentDailyProcess pl))
      (destinationLineId (plan_body pl)) /\
  devolutionProcesses pl <> [].
Proof.
  unfold POST_resolve, resolved, accepted, valid_qr.
  destruct (auth_error (auth req)); simpl; [discriminate|].
  destruct (session_user (auth req)) as [user|]; simpl; [|discriminate].
  destruct (profiles s !! user_id user) as [pr|] eqn:Hp; simpl; [|discriminate].
  destruct (req_body req) as [body|]; simpl; [|discriminate].
  destruct (truthy (qrId body)) eqn:Hq; simpl; [|discriminate].
  destruct (nullish (temperature body)) eqn:Ht; simpl; [discriminate|].
  destruct (truthy (destinationLineId body)) eqn:Hl; simpl; [|discriminate].
  destruct (truthy (transactionType body)) eqn:Hx; simpl; [|discriminate].
  destruct (findUnique (lines s) (destinationLineId body)) as [| |[line|]] eqn:Hline;
    simpl; try discriminate.
  destruct (findUnique (qrCodes s) (qrId body)) as [| |[qr|]] eqn:Hqr;
    simpl; try discriminate.
  destruct (isActive qr) eqn:Hact; simpl; [|discriminate].
  destruct (String.eqb (qr_type qr) _) eqn:Hty; simpl; [|discriminate].
  apply String.eqb_eq in Hty.
  destruct (dailyProcess_findFirst _ _ _) as [dp|] eqn:Hdp; simpl; [|discriminate].
  destruct (length _ =? 0)%nat eqn:Hlen; simpl; [discriminate|].
  intros [= <-]; simpl. rewrite Hp. repeat split; eauto.
  intros Hnil. rewrite Hnil in Hlen. discriminate.
Qed.

(** Only the write phase touches the store. *)
Lemma POST_no_plan f clk s req :
  (forall pl, POST_resolve clk s req <> Continue pl) -> (POST f clk s req).2 = s.
Proof.
  intros H. unfold POST, POST_finish. destruct (POST_resolve clk s req) as [r| |pl]; try reflexivity.
  destruct (H pl eq_refl).
Qed.

Lemma POST_plan f clk s req pl :
  POST_resolve clk s req = Continue pl -> POST f clk s req = POST_commit f clk pl s.
Proof. intros H. unfold POST, POST_finish. rewrite H. reflexivity. Qed.

Lemma POST_nothing_eligible f clk s req user body line qr dp :
  resolved clk s req user body line qr dp ->
  medicationProcess_findMany s (dp_id dp) (destinationLineId body) = [] ->
  POST f clk s req = (NoDevolutionProcesses line, s).
Proof.
  intros Hres Hnil. unfold POST, POST_finish.
  rewrite (POST_resolve_resolved _ _ _ _ _ _ _ _ Hres); simpl.
  rewrite Hnil. reflexivity.
Qed.

Lemma plan_rows_current clk s req pl :
  POST_resolve clk s req = Continue pl -> rows_current s (devolutionProcesses pl).
Proof.
  intros H. apply POST_resolve_Continue in H as (_ & -> & _). apply findMany_rows_current.
Qed.

(** Outside the two tables it writes, the write phase leaves the store as it
    found it, whatever the faults. *)
Lemma POST_commit_frame f clk pl s :
  (POST_commit f clk pl s).2 =
  set_qrScanRecords (qrScanRecords (POST_commit f clk pl s).2)
    (set_medicationProcesses (medicationProcesses (POST_commit f clk pl s).2) s).
Proof.
  unfold POST_commit.
  pose proof (update_all_frame f (now clk) (devolutionProcesses pl) 0 s) as Hu.
  destruct (update_all f (now clk) 0 (devolutionProcesses pl) s) as [[ups|] s1]; simpl in *.
  - pose proof (create_all_store f clk pl ups 0 s1) as Hc.
    destruct (create_all f clk pl 0 ups s1) as [[?|] s2]; simpl in *;
      rewrite Hc, Hu; reflexivity.
  - rewrite Hu. reflexivity.
Qed.

Lemma POST_commit_medicationProcesses f clk pl s :
  medicationProcesses (POST_commit f clk pl s).2 =
  medicationProcesses (update_all f (now clk) 0 (devolutionProcesses pl) s).2.
Proof.
  unfold POST_commit.
  destruct (update_all f (now clk) 0 (devolutionProcesses pl) s) as [[ups|] s1]; simpl;
    [|reflexivity].
  pose proof (create_all_store f clk pl ups 0 s1) as Hc.
  destruct (create_all f clk pl 0 ups s1) as [[?|] s2]; simpl in *; rewrite Hc; reflexivity.
Qed.

(** ** Calls that write nothing, rows that are not written *)

(** C9: a caller whose session carries a user but who has no Profile row gets
    the 404 response "Profile not found", the store is left as it was, and
    that response is none of the responses the handler gives for an
    unauthorized caller, an invalid QR code, a missing daily process, an
    unknown line, an empty eligible set or a store failure. *)
Theorem profile_not_found f clk s req user :
  auth_error (auth req) = false ->
  session_user (auth req) = Some user ->
  profiles s !! user_id user = None ->
  POST f clk s req = (ProfileNotFound, s) /\
  resp_status ProfileNotFound = 404 /\
  (ProfileNotFound ∉ [Unauthorized; InvalidQRCode; NoActiveDailyProcess;
                      InvalidDestinationLine; InternalServerError]) /\
  forall line, ProfileNotFound <> NoDevolutionProcesses line.
Proof.
  intros He Hu Hp. split; [|split; [reflexivity | split]].
  - unfold POST, POST_finish, POST_resolve. rewrite He, Hu; simpl. rewrite Hp. reflexivity.
  - intros Hin. repeat (apply elem_of_cons in Hin as [Hin|Hin]; [discriminate|]).
    inversion Hin.
  - intros line. discriminate.
Qed.

Lemma profile_not_found_witness :
  POST no_faults Ward.clock Ward.store
    {| auth := Ward.signed_in "user-7"; req_body := req_body Ward.scan_line2 |}
  = (ProfileNotFound, Ward.store).
Proof.
  apply (profile_not_found no_faults Ward.clock Ward.store
           {| auth := Ward.signed_in "user-7"; req_body := req_body Ward.scan_line2 |}
           {| user_id := "user-7" |}); reflexivity.
Defined.

(** C4: when the request passes every check and no row matches today's daily
    process, step DEVOLUCION, status IN_PROGRESS and the destination line,
    the handler answers 400 with the "no patients with an active devolution"
    message and the store is left exactly as it was, whether or not store
    writes would fail. *)
Theorem no_eligible_processes f clk s req user body line qr dp :
  resolved clk s req user body line qr dp ->
  medicationProcess_findMany s (dp_id dp) (destinationLineId body) = [] ->
  POST f clk s req = (NoDevolutionProcesses line, s) /\
  resp_status (NoDevolutionProcesses line) = 400.
Proof.
  intros Hres Hnil. split; [|reflexivity].
  apply (POST_nothing_eligible _ _ _ _ user body line qr dp); assumption.
Qed.

Lemma no_eligible_processes_witness :
  POST no_faults Ward.clock Ward.store Ward.scan_line3
  = (NoDevolutionProcesses {| displayName := "Línea 3" |}, Ward.store).
Proof.
  apply (no_eligible_processes no_faults Ward.clock Ward.store Ward.scan_line3
           {| user_id := "user-1" |}
           {| qrId := JString "QR-DEV"; temperature := JNumber (4 # 1);
              destinationLineId := JString "line-3";
              transactionType := JString "DEVOLUCION" |}
           {| displayName := "Línea 3" |}
           {| qr_id := "qr-1"; isActive := true; qr_type := "PHARMACY_DISPATCH_DEVOLUTION" |}
           Ward.today).
  - repeat split; try reflexivity. vm_compute. eauto.
  - vm_compute. reflexivity.
Defined.

(** C5: a MedicationProcess row that the eligibility query cannot return --
    its step is not DEVOLUCION, or its status is not IN_PROGRESS, or its
    patient's line is not the destination line of the request, or it belongs
    to another daily process than today's -- is the same after the call as
    before it, whether or not store writes fail. *)
Theorem dispatch_frame f clk s req id mp :
  medicationProcesses s !! id = Some mp ->
  (step mp <> "DEVOLUCION" \/
   status mp <> IN_PROGRESS \/
   (forall body, req_body req = Some body ->
      JString <$> patient_lineId s (patientId mp) <> Some (destinationLineId body)) \/
   (forall dp,
      dailyProcess_findFirst (startOfDay clk) (endOfDay clk) (dailyProcesses s) = Some dp ->
      dailyProcessId mp <> dp_id dp)) ->
  medicationProcesses (POST f clk s req).2 !! id = Some mp.
Proof.
  intros Hl Hout.
  destruct (POST_resolve clk s req) as [r| |pl] eqn:Hres;
    try (rewrite POST_no_plan by (intros pl'; congruence); exact Hl).
  rewrite (POST_plan _ _ _ _ _ Hres), POST_commit_medicationProcesses.
  apply POST_resolve_Continue in Hres as (Hres & Hps & _).
  destruct Hres as ((_ & _ & _ & Hb & _) & _ & _ & _ & Hdp).
  rewrite update_all_miss; [exact Hl|].
  intros j [id' mp'] Hj Hid. simpl in Hid. subst id'. exfalso.
  apply list_elem_of_lookup_2 in Hj. rewrite Hps in Hj.
  apply findMany_spec in Hj as [Hl' (Hd & Hs & Hst & Hline)].
  assert (mp' = mp) as -> by congruence.
  destruct Hout as [H | [H | [H | H]]]; [auto | auto | |].
  - exact (H _ Hb Hline).
  - exact (H _ Hdp Hd).
Qed.

Lemma dispatch_frame_witness :
  medicationProcesses (POST no_faults Ward.clock Ward.store Ward.scan_line2).2 !! "mp-6"
  = Some (Ward.in_devolution "pat-5").
Proof.
  apply (dispatch_frame no_faults Ward.clock Ward.store Ward.scan_line2 "mp-6"
           (Ward.in_devolution "pat-5")).
  - vm_compute. reflexivity.
  - right. right. left. intros body Hb. injection Hb as <-. vm_compute. discriminate.
Defined.

(** ** After a dispatch *)

(** Every status update that went through is in the store the call leaves
    behind, whatever else failed. *)
Lemma commit_dispatches f clk pl s j id mp :
  rows_current s (devolutionProcesses pl) ->
  devolutionProcesses pl !! j = Some (id, mp) ->
  update_throws f j = false ->
  medicationProcesses (POST_commit f clk pl s).2 !! id = Some (dispatched (now clk) mp).
Proof.
  intros Hcur Hj Hok. rewrite POST_commit_medicationProcesses.
  pose proof (update_all_hit f (now clk) _ 0 s j (id, mp) Hj Hok) as Hhit.
  simpl in Hhit. rewrite Hhit.
  destruct (Hcur id mp) as (mp0 & Hl & Hd); [eapply list_elem_of_lookup_2; eauto|].
  rewrite Hl. simpl. rewrite Hd. reflexivity.
Qed.

Lemma commit_dispatches_all f clk pl s id mp :
  rows_current s (devolutionProcesses pl) ->
  none_throws (update_throws f) 0 (length (devolutionProcesses pl)) = true ->
  (id, mp) ∈ devolutionProcesses pl ->
  medicationProcesses (POST_commit f clk pl s).2 !! id = Some (dispatched (now clk) mp).
Proof.
  intros Hcur Hok Hin. apply list_elem_of_lookup_1 in Hin as [j Hj].
  apply (commit_dispatches f clk pl s j); auto.
  apply (proj1 (none_throws_spec _ _ _) Hok j). eapply lookup_lt_Some; eauto.
Qed.

Lemma devolution_where_frame s M X dpId line mp :
  devolution_where (set_qrScanRecords X (set_medicationProcesses M s)) dpId line mp =
  devolution_where s dpId line mp.
Proof. reflexivity. Qed.

(** Once the rows the query returned are dispatched, and the others are
    either as before or dispatched, the same query returns nothing. *)
Lemma findMany_after_dispatch s s1 t dpId line :
  s1 = set_qrScanRecords (qrScanRecords s1) (set_medicationProcesses (medicationProcesses s1) s) ->
  (forall id, medicationProcesses s1 !! id = medicationProcesses s !! id \/
              medicationProcesses s1 !! id = dispatched t <$> medicationProcesses s !! id) ->
  (forall id mp, (id, mp) ∈ medicationProcess_findMany s dpId line ->
                 medicationProcesses s1 !! id = Some (dispatched t mp)) ->
  medicationProcess_findMany s1 dpId line = [].
Proof.
  intros Hs1 Hany Hhit. apply findMany_nil. intros id mp Hl Hw.
  rewrite Hs1, devolution_where_frame in Hw.
  destruct (Hany id) as [He | He]; rewrite Hl in He.
  - symmetry in He. specialize (Hhit id mp (proj2 (findMany_spec _ _ _ _ _) (conj He Hw))).
    rewrite Hl in Hhit. injection Hhit as Hmp.
    destruct Hw as (_ & _ & Hst & _). rewrite Hmp in Hst. discriminate.
  - destruct (medicationProcesses s !! id) as [mp0|]; [|discriminate].
    injection He as ->. destruct Hw as (_ & _ & Hst & _). discriminate.
Qed.

Lemma resolved_frame clk clk' s s1 req user body line qr dp :
  s1 = set_qrScanRecords (qrScanRecords s1) (set_medicationProcesses (medicationProcesses s1) s) ->
  startOfDay clk = startOfDay clk' ->
  endOfDay clk = endOfDay clk' ->
  resolved clk s req user body line qr dp ->
  resolved clk' s1 req user body line qr dp.
Proof.
  intros -> Hday Hend. unfold resolved, accepted. rewrite Hday, Hend. simpl. auto.
Qed.

Lemma POST_resolve_same_day clk clk' s req :
  startOfDay clk = startOfDay clk' -> endOfDay clk = endOfDay clk' ->
  POST_resolve clk s req = POST_resolve clk' s req.
Proof. intros Hday Hend. unfold POST_resolve. rewrite Hday, Hend. reflexivity. Qed.

(** A second call, on the same day, after a call all of whose status updates
    went through, finds no eligible row and writes nothing. *)
Lemma dispatch_again f1 f2 clk1 clk2 s req pl :
  startOfDay clk1 = startOfDay clk2 ->
  endOfDay clk1 = endOfDay clk2 ->
  POST_resolve clk1 s req = Continue pl ->
  none_throws (update_throws f1) 0 (length (devolutionProcesses pl)) = true ->
  POST f2 clk2 (POST f1 clk1 s req).2 req =
  (NoDevolutionProcesses (selectedLine pl), (POST f1 clk1 s req).2).
Proof.
  intros Hday Hend Hres Hok. rewrite (POST_plan _ _ _ _ _ Hres).
  pose proof (plan_rows_current _ _ _ _ Hres) as Hcur.
  apply POST_resolve_Continue in Hres as (Hr & Hps & _).
  set (s1 := (POST_commit f1 clk1 pl s).2).
  assert (Hs1 : s1 = set_qrScanRecords (qrScanRecords s1)
                       (set_medicationProcesses (medicationProcesses s1) s))
    by apply POST_commit_frame.
  apply (resolved_frame clk1 clk2 s s1) in Hr; auto.
  eapply POST_nothing_eligible; [exact Hr|].
  apply (findMany_after_dispatch s s1 (now clk1)); [exact Hs1| |].
  - intros id. unfold s1. rewrite POST_commit_medicationProcesses. apply update_all_lookup.
  - intros id mp Hin. rewrite <- Hps in Hin. apply commit_dispatches_all; auto.
Qed.

Lemma commit_success f clk pl s :
  rows_current s (devolutionProcesses pl) ->
  none_throws (update_throws f) 0 (length (devolutionProcesses pl)) = true ->
  none_throws (create_throws f) 0 (length (devolutionProcesses pl)) = true ->
  (POST_commit f clk pl s).1 =
    DispatchRegistered (length (devolutionProcesses pl)) (selectedLine pl) /\
  qrScanRecords (POST_commit f clk pl s).2 =
    (qrScanRecords s ++ (scan_record clk pl <$> devolutionProcesses pl))%list.
Proof.
  intros Hcur Hu Hc. rewrite (POST_commit_spec _ _ _ _ Hcur); simpl.
  rewrite Hu, Hc; simpl. rewrite survivors_all by exact Hc. auto.
Qed.

Lemma commit_status_200 f clk pl s :
  rows_current s (devolutionProcesses pl) ->
  resp_status (POST_commit f clk pl s).1 = 200 ->
  none_throws (update_throws f) 0 (length (devolutionProcesses pl)) = true /\
  none_throws (create_throws f) 0 (length (devolutionProcesses pl)) = true.
Proof.
  intros Hcur. rewrite (POST_commit_spec _ _ _ _ Hcur); simpl.
  destruct (none_throws (update_throws f) _ _); simpl; [|discriminate].
  destruct (none_throws (create_throws f) _ _); simpl; [auto | discriminate].
Qed.

Lemma none_throws_pointwise throws i n :
  (forall j, throws j = false) -> none_throws throws i n = true.
Proof. intros H. apply none_throws_spec. auto. Qed.

Lemma resolved_plan clk s req user body line qr dp :
  resolved clk s req user body line qr dp ->
  medicationProcess_findMany s (dp_id dp) (destinationLineId body) <> [] ->
  POST_resolve clk s req =
  Continue (Build_Plan user body line qr dp
              (medicationProcess_findMany s (dp_id dp) (destinationLineId body))).
Proof.
  intros Hres Hne. rewrite (POST_resolve_resolved _ _ _ _ _ _ _ _ Hres); simpl.
  destruct (medicationProcess_findMany _ _ _); [congruence | reflexivity].
Qed.

(** C7: when the request passes every check and the eligibility query
    returns n > 0 rows, a call in which no store write fails answers 200, and
    every call that answers 200 reports patientsCount = n, the display name
    of the destination line and the fixed next-step hint, leaves each of the
    n rows DISPATCHED_FROM_PHARMACY and has appended exactly one scan record
    per row. *)
Theorem dispatch_report f clk s req user body line qr dp :
  resolved clk s req user body line qr dp ->
  medicationProcess_findMany s (dp_id dp) (destinationLineId body) <> [] ->
  let ps := medicationProcess_findMany s (dp_id dp) (destinationLineId body) in
  let r := (POST f clk s req).1 in
  let s' := (POST f clk s req).2 in
  ((forall i, update_throws f i = false) -> (forall i, create_throws f i = false) ->
   resp_status r = 200) /\
  (resp_status r = 200 ->
   (exists message,
      r = json (SuccessBody message (length ps) (displayName line) nextStepHint) 200) /\
   (forall id mp, (id, mp) ∈ ps ->
      medicationProcesses s' !! id = Some (dispatched (now clk) mp) /\
      status (dispatched (now clk) mp) = DISPATCHED_FROM_PHARMACY) /\
   qrScanRecords s' =
     (qrScanRecords s ++ (scan_record clk (Build_Plan user body line qr dp ps) <$> ps))%list /\
   length (qrScanRecords s') = (length (qrScanRecords s) + length ps)%nat).
Proof.
  intros Hres Hne ps r s'. subst r s'.
  pose proof (resolved_plan _ _ _ _ _ _ _ _ Hres Hne) as Hpl. fold ps in Hpl.
  pose proof (plan_rows_current _ _ _ _ Hpl) as Hcur.
  rewrite (POST_plan _ _ _ _ _ Hpl). split.
  - intros Hu Hc.
    destruct (commit_success f clk _ s Hcur) as [-> _];
      [apply none_throws_pointwise; auto .. | reflexivity].
  - intros H200. destruct (commit_status_200 _ _ _ _ Hcur H200) as [Hu Hc].
    destruct (commit_success f clk _ s Hcur Hu Hc) as [Hr Hs].
    split; [|split; [|split]].
    + rewrite Hr. eexists. reflexivity.
    + intros id mp Hin. split; [|reflexivity].
      apply commit_dispatches_all; auto.
    + exact Hs.
    + rewrite Hs, length_app, length_fmap. reflexivity.
Qed.

(** The scenario of three patients of line 2 in IN_PROGRESS / DEVOLUCION. *)
Lemma dispatch_report_witness :
  resp_status (POST no_faults Ward.clock Ward.store Ward.scan_line2).1 = 200 /\
  (exists message,
     (POST no_faults Ward.clock Ward.store Ward.scan_line2).1 =
     json (SuccessBody message 3 "Línea 2" nextStepHint) 200) /\
  (forall id, id ∈ ["mp-1"; "mp-2"; "mp-3"] ->
     status <$> medicationProcesses (POST no_faults Ward.clock Ward.store Ward.scan_line2).2 !! id
     = Some DISPATCHED_FROM_PHARMACY) /\
  length (qrScanRecords (POST no_faults Ward.clock Ward.store Ward.scan_line2).2) = 3%nat.
Proof.
  assert (Hres : resolved Ward.clock Ward.store Ward.scan_line2
                   (plan_user Ward.plan_line2) (plan_body Ward.plan_line2)
                   (selectedLine Ward.plan_line2) (qrCode Ward.plan_line2) Ward.today).
  { repeat split; try reflexivity. vm_compute. eauto. }
  assert (Hne : medicationProcess_findMany Ward.store (dp_id Ward.today)
                  (destinationLineId (plan_body Ward.plan_line2)) <> []).
  { vm_compute. discriminate. }
  destruct (dispatch_report no_faults Ward.clock Ward.store Ward.scan_line2
              _ _ _ _ _ Hres Hne) as [H200 Hrep].
  specialize (H200 (fun _ => eq_refl) (fun _ => eq_refl)).
  destruct (Hrep H200) as (Hmsg & Hrows & _ & Hlen).
  split; [exact H200|]. split; [exact Hmsg|]. split; [|exact Hlen].
  intros id Hid.
  assert (Hin : exists mp, (id, mp) ∈ medicationProcess_findMany Ward.store (dp_id Ward.today)
                                        (destinationLineId (plan_body Ward.plan_line2))).
  { vm_compute.
    repeat (apply elem_of_cons in Hid as [-> | Hid];
            [eexists; repeat (first [left; reflexivity | right]) |]).
    inversion Hid. }
  destruct Hin as [mp Hin]. destruct (Hrows id mp Hin) as [-> _]. reflexivity.
Defined.

(** C3, counterexample: the second of two calls in succession finds eligible
    rows and dispatches them.  First, the update of one of the three rows of
    line 2 fails in the first call: the call answers 500 and the second call
    dispatches the row that was left, with a count of 1.  Second, midnight
    falls between the two calls and the next day's batch is already there:
    the first call dispatches the three rows of today's batch, the second one
    the row of tomorrow's, with a count of 1. *)
Lemma second_call_dispatches :
  (POST Ward.second_update_fails Ward.clock Ward.store Ward.scan_line2).1 =
    InternalServerError /\
  (POST no_faults Ward.later
     (POST Ward.second_update_fails Ward.clock Ward.store Ward.scan_line2).2
     Ward.scan_line2).1 = DispatchRegistered 1 {| displayName := "Línea 2" |} /\
  (POST no_faults Ward.before_midnight Ward.store_overnight Ward.scan_line2).1 =
    DispatchRegistered 3 {| displayName := "Línea 2" |} /\
  (POST no_faults Ward.after_midnight
     (POST no_faults Ward.before_midnight Ward.store_overnight Ward.scan_line2).2
     Ward.scan_line2).1 = DispatchRegistered 1 {| displayName := "Línea 2" |}.
Proof. vm_compute. repeat split; reflexivity. Qed.

(** C3, amended: two calls in succession with the same request, both within
    the same today window, no store write of the first call failing.  The
    second call never changes the store.  If the first call was not a success
    it changed nothing either and the second answers the same.  If the
    request passes the checks and some row of the store is of today's daily
    process, of step DEVOLUCION, IN_PROGRESS and of a patient of the
    destination line, then the first call answers 200 with the number of such
    rows as its count, dispatches each of them and writes one scan record per
    row; the second call finds none of them eligible, answers 400 with the
    "no patients with an active devolution" message, and leaves each row as
    the first call wrote it: every such row is transitioned exactly once. *)
Theorem dispatch_twice f1 f2 clk1 clk2 s req :
  startOfDay clk1 = startOfDay clk2 ->
  endOfDay clk1 = endOfDay clk2 ->
  (forall j, update_throws f1 j = false) ->
  (forall j, create_throws f1 j = false) ->
  let r1 := (POST f1 clk1 s req).1 in
  let s1 := (POST f1 clk1 s req).2 in
  let r2 := (POST f2 clk2 s1 req).1 in
  let s2 := (POST f2 clk2 s1 req).2 in
  s2 = s1 /\
  (resp_status r1 <> 200 -> s1 = s /\ r2 = r1) /\
  (forall user body line qr dp,
     resolved clk1 s req user body line qr dp ->
     (exists id mp,
        medicationProcesses s !! id = Some mp /\
        dailyProcessId mp = dp_id dp /\ step mp = "DEVOLUCION" /\
        status mp = IN_PROGRESS /\
        JString <$> patient_lineId s (patientId mp) = Some (destinationLineId body)) ->
     resp_status r1 = 200 /\
     (forall id mp,
        medicationProcesses s !! id = Some mp ->
        dailyProcessId mp = dp_id dp -> step mp = "DEVOLUCION" ->
        status mp = IN_PROGRESS ->
        JString <$> patient_lineId s (patientId mp) = Some (destinationLineId body) ->
        medicationProcesses s1 !! id = Some (dispatched (now clk1) mp) /\
        medicationProcesses s2 !! id = Some (dispatched (now clk1) mp)) /\
     (exists ps,
        NoDup ps.*1 /\
        (forall id mp, (id, mp) ∈ ps <->
           medicationProcesses s !! id = Some mp /\
           dailyProcessId mp = dp_id dp /\ step mp = "DEVOLUCION" /\
           status mp = IN_PROGRESS /\
           JString <$> patient_lineId s (patientId mp) = Some (destinationLineId body)) /\
        r1 = DispatchRegistered (length ps) line /\
        length (qrScanRecords s1) = (length (qrScanRecords s) + length ps)%nat) /\
     r2 = NoDevolutionProcesses line /\
     resp_status r2 = 400).
Proof.
  intros Hday Hend Hu Hc r1 s1 r2 s2. subst r1 s1 r2 s2.
  destruct (POST_resolve clk1 s req) as [r| |pl] eqn:Hres.
  - assert (H1 : POST f1 clk1 s req = (r, s))
      by (unfold POST, POST_finish; rewrite Hres; reflexivity).
    assert (H2 : POST f2 clk2 s req = (r, s))
      by (unfold POST, POST_finish;
          rewrite <- (POST_resolve_same_day _ _ _ _ Hday Hend), Hres; reflexivity).
    rewrite H1; simpl. rewrite H2; simpl.
    split; [reflexivity|]. split; [auto|].
    intros user body line qr dp Hr (id & mp & Hl & Hw).
    assert (Hne : medicationProcess_findMany s (dp_id dp) (destinationLineId body) <> []).
    { intros Hnil. assert (Hin : (id, mp) ∈ medicationProcess_findMany s (dp_id dp)
                                               (destinationLineId body))
        by (apply findMany_spec; split; assumption).
      rewrite Hnil in Hin. inversion Hin. }
    rewrite (resolved_plan _ _ _ _ _ _ _ _ Hr Hne) in Hres. discriminate.
  - assert (H1 : POST f1 clk1 s req = (InternalServerError, s))
      by (unfold POST, POST_finish; rewrite Hres; reflexivity).
    assert (H2 : POST f2 clk2 s req = (InternalServerError, s))
      by (unfold POST, POST_finish;
          rewrite <- (POST_resolve_same_day _ _ _ _ Hday Hend), Hres; reflexivity).
    rewrite H1; simpl. rewrite H2; simpl.
    split; [reflexivity|]. split; [auto|].
    intros user body line qr dp Hr (id & mp & Hl & Hw).
    assert (Hne : medicationProcess_findMany s (dp_id dp) (destinationLineId body) <> []).
    { intros Hnil. assert (Hin : (id, mp) ∈ medicationProcess_findMany s (dp_id dp)
                                               (destinationLineId body))
        by (apply findMany_spec; split; assumption).
      rewrite Hnil in Hin. inversion Hin. }
    rewrite (resolved_plan _ _ _ _ _ _ _ _ Hr Hne) in Hres. discriminate.
  - pose proof (plan_rows_current _ _ _ _ Hres) as Hcur.
    assert (Hok : none_throws (update_throws f1) 0 (length (devolutionProcesses pl)) = true)
      by (apply none_throws_pointwise; exact Hu).
    assert (Hok' : none_throws (create_throws f1) 0 (length (devolutionProcesses pl)) = true)
      by (apply none_throws_pointwise; exact Hc).
    rewrite (dispatch_again f1 f2 _ _ _ _ _ Hday Hend Hres Hok); simpl.
    rewrite (POST_plan _ _ _ _ _ Hres).
    destruct (commit_success f1 clk1 pl s Hcur Hok Hok') as [Hr1 Hs1].
    split; [reflexivity|]. split.
    + rewrite Hr1. simpl. congruence.
    + intros user body line qr dp Hr (id0 & mp0 & Hl0 & Hw0).
      assert (Hne : medicationProcess_findMany s (dp_id dp) (destinationLineId body) <> []).
      { intros Hnil. assert (Hin : (id0, mp0) ∈ medicationProcess_findMany s (dp_id dp)
                                                   (destinationLineId body))
          by (apply findMany_spec; split; assumption).
        rewrite Hnil in Hin. inversion Hin. }
      rewrite (resolved_plan _ _ _ _ _ _ _ _ Hr Hne) in Hres. injection Hres as <-.
      simpl in *.
      assert (Hrow : forall id mp,
                medicationProcesses s !! id = Some mp ->
                devolution_where s (dp_id dp) (destinationLineId body) mp ->
                medicationProcesses
                  (POST_commit f1 clk1
                     (Build_Plan user body line qr dp
                        (medicationProcess_findMany s (dp_id dp) (destinationLineId body)))
                     s).2 !! id = Some (dispatched (now clk1) mp)).
      { intros id mp Hl Hw. apply commit_dispatches_all; auto.
        simpl. apply findMany_spec. auto. }
      split; [rewrite Hr1; reflexivity|]. split; [|split; [|split; reflexivity]].
      * intros id mp Hl H1 H2 H3 H4.
        assert (Hw : devolution_where s (dp_id dp) (destinationLineId body) mp)
          by (repeat split; assumption).
        split; apply Hrow; assumption.
      * exists (medicationProcess_findMany s (dp_id dp) (destinationLineId body)).
        split; [apply findMany_NoDup|]. split; [intros id mp; apply findMany_spec|].
        split; [exact Hr1|]. rewrite Hs1, length_app, length_fmap. reflexivity.
Qed.

Lemma dispatch_twice_witness :
  resp_status (POST no_faults Ward.clock Ward.store Ward.scan_line2).1 = 200 /\
  medicationProcesses
    (POST no_faults Ward.later
       (POST no_faults Ward.clock Ward.store Ward.scan_line2).2 Ward.scan_line2).2 !! "mp-1"
  = Some (dispatched (now Ward.clock) (Ward.in_devolution "pat-1")) /\
  (POST no_faults Ward.later
     (POST no_faults Ward.clock Ward.store Ward.scan_line2).2 Ward.scan_line2).1
  = NoDevolutionProcesses {| displayName := "Línea 2" |}.
Proof.
  assert (Hres : resolved Ward.clock Ward.store Ward.scan_line2
                   (plan_user Ward.plan_line2) (plan_body Ward.plan_line2)
                   (selectedLine Ward.plan_line2) (qrCode Ward.plan_line2) Ward.today).
  { repeat split; try reflexivity. vm_compute. eauto. }
  destruct (dispatch_twice no_faults no_faults Ward.clock Ward.later Ward.store Ward.scan_line2)
    as (_ & _ & Hdisp); try reflexivity.
  destruct (Hdisp _ _ _ _ _ Hres) as (H200 & Hrows & _ & Hr2 & _).
  - exists "mp-1", (Ward.in_devolution "pat-1"). repeat split; reflexivity.
  - split; [exact H200|]. split; [|exact Hr2].
    apply (Hrows "mp-1" (Ward.in_devolution "pat-1")); reflexivity.
Defined.

(** ** Two calls at once, and calls whose writes fail *)

Lemma commit_rows_current f clk pl s ps :
  rows_current s ps -> rows_current (POST_commit f clk pl s).2 ps.
Proof.
  unfold rows_current. rewrite POST_commit_medicationProcesses.
  apply update_all_rows_current.
Qed.

(** C1, counterexample: two calls for line 1, whose single eligible row is
    mp-6, both read before either writes.  Neither skips the row: both answer
    with a count of 1, two scan records are written for the same patient, and
    the row carries the timestamp of the second update. *)
Lemma race_double_transition :
  (POST_race no_faults no_faults Ward.clock Ward.later Ward.store
     Ward.scan_line1 Ward.scan_line1).1 =
    (DispatchRegistered 1 {| displayName := "Línea 1" |},
     DispatchRegistered 1 {| displayName := "Línea 1" |}) /\
  sr_patientId <$> qrScanRecords
    (POST_race no_faults no_faults Ward.clock Ward.later Ward.store
       Ward.scan_line1 Ward.scan_line1).2 = ["pat-5"; "pat-5"] /\
  scannedAt <$> qrScanRecords
    (POST_race no_faults no_faults Ward.clock Ward.later Ward.store
       Ward.scan_line1 Ward.scan_line1).2 = [1800000000000; 1800000000500] /\
  medicationProcesses
    (POST_race no_faults no_faults Ward.clock Ward.later Ward.store
       Ward.scan_line1 Ward.scan_line1).2 !! "mp-6" =
    Some (dispatched 1800000000500 (Ward.in_devolution "pat-5")).
Proof. vm_compute. repeat split; reflexivity. Qed.

(** *** Writes landing one at a time, in any order *)

Lemma apply_op_frame o s :
  apply_op o s =
  set_qrScanRecords (qrScanRecords (apply_op o s))
    (set_medicationProcesses (medicationProcesses (apply_op o s)) s).
Proof.
  destruct o as [id t|data]; unfold apply_op.
  - pose proof (update_frame false t id s) as H.
    set (x := (medicationProcess_update false t id s).2) in *.
    rewrite H. destruct s; reflexivity.
  - destruct s; reflexivity.
Qed.

Lemma run_ops_frame ops : forall s,
  run_ops ops s =
  set_qrScanRecords (qrScanRecords (run_ops ops s))
    (set_medicationProcesses (medicationProcesses (run_ops ops s)) s).
Proof.
  induction ops as [|o ops IH]; intros s; simpl.
  - destruct s; reflexivity.
  - rewrite IH at 1. rewrite apply_op_frame. reflexivity.
Qed.

Lemma run_ops_devolution_where ops s :
  devolution_where (run_ops ops s) = devolution_where s.
Proof. rewrite run_ops_frame. reflexivity. Qed.

Lemma run_ops_app ops1 ops2 s :
  run_ops (ops1 ++ ops2) s = run_ops ops2 (run_ops ops1 s).
Proof. revert s. induction ops1 as [|o ops1 IH]; intros s; simpl; auto. Qed.

Lemma apply_op_lookup o s id :
  medicationProcesses (apply_op o s) !! id =
  match o with
  | OpUpdate id' t =>
      if bool_decide (id' = id) then dispatched t <$> medicationProcesses s !! id
      else medicationProcesses s !! id
  | OpCreate _ => medicationProcesses s !! id
  end.
Proof.
  destruct o as [id' t|data]; unfold apply_op; [|reflexivity].
  rewrite update_lookup. destruct (decide (id' = id)) as [->|Hn].
  - rewrite !bool_decide_eq_true_2 by auto. reflexivity.
  - rewrite !bool_decide_eq_false_2 by (try intros [_ ?]; congruence). reflexivity.
Qed.

(** A row that no update of the sequence addresses is left as it was. *)
Lemma run_ops_miss ops id : forall s,
  (forall t, OpUpdate id t ∉ ops) ->
  medicationProcesses (run_ops ops s) !! id = medicationProcesses s !! id.
Proof.
  induction ops as [|o ops IH]; intros s Hno; simpl; [reflexivity|].
  rewrite IH by (intros t Hin; apply (Hno t); right; exact Hin).
  rewrite apply_op_lookup. destruct o as [id' t|data]; [|reflexivity].
  case_bool_decide as Hd; [|reflexivity]. subst id'. destruct (Hno t). left.
Qed.

Lemma run_ops_lookup ops id : forall s,
  medicationProcesses (run_ops ops s) !! id = medicationProcesses s !! id \/
  exists t, medicationProcesses (run_ops ops s) !! id =
            dispatched t <$> medicationProcesses s !! id.
Proof.
  induction ops as [|o ops IH]; intros s; simpl; [auto|].
  destruct (IH (apply_op o s)) as [-> | [t ->]]; rewrite apply_op_lookup;
    destruct o as [id' t'|data]; try case_bool_decide; eauto.
  right. exists t. destruct (medicationProcesses s !! id); reflexivity.
Qed.

(** A row that some update of the sequence addresses ends dispatched, whatever
    its status was. *)
Lemma run_ops_hit ops id t : forall s,
  OpUpdate id t ∈ ops ->
  exists t', medicationProcesses (run_ops ops s) !! id =
             dispatched t' <$> medicationProcesses s !! id.
Proof.
  induction ops as [|o ops IH]; intros s Hin; [inversion Hin|]. simpl.
  apply elem_of_cons in Hin as [<- | Hin].
  - destruct (run_ops_lookup ops id (apply_op (OpUpdate id t) s)) as [-> | [t' ->]];
      rewrite apply_op_lookup, bool_decide_eq_true_2 by reflexivity; eauto.
    exists t'. destruct (medicationProcesses s !! id); reflexivity.
  - destruct (IH (apply_op o s) Hin) as [t' ->]. rewrite apply_op_lookup.
    destruct o as [id' t''|data]; try case_bool_decide; eauto.
    exists t'. destruct (medicationProcesses s !! id); reflexivity.
Qed.

Lemma run_ops_scans ops : forall s,
  qrScanRecords (run_ops ops s) = (qrScanRecords s ++ inserted ops)%list.
Proof.
  induction ops as [|o ops IH]; intros s; simpl; [rewrite app_nil_r; reflexivity|].
  rewrite IH. destruct o as [id t|data]; simpl.
  - unfold inserted; simpl. f_equal.
    unfold medicationProcess_update. destruct (medicationProcesses s !! id); reflexivity.
  - unfold inserted; simpl. rewrite <- app_assoc. reflexivity.
Qed.

Lemma run_ops_rows_current ops s ps :
  rows_current s ps -> rows_current (run_ops ops s) ps.
Proof.
  intros H id mp Hin. destruct (H id mp Hin) as (mp0 & Hl & Hd).
  destruct (run_ops_lookup ops id s) as [-> | [t ->]]; rewrite Hl; simpl; eauto.
Qed.

Lemma weave_Permutation {A : Type} (sched : list bool) : forall l1 l2 : list A,
  weave sched l1 l2 ≡ₚ l1 ++ l2.
Proof.
  induction sched as [|[|] sched IH]; intros l1 l2; simpl.
  - reflexivity.
  - destruct l1 as [|x l1]; [reflexivity|]. simpl. rewrite IH. reflexivity.
  - destruct l2 as [|y l2]; [rewrite app_nil_r; reflexivity|].
    rewrite IH. apply Permutation_middle.
Qed.

Lemma inserted_updates_of clk pl : inserted (updates_of clk pl) = [].
Proof.
  unfold inserted, updates_of. induction (devolutionProcesses pl); simpl; auto.
Qed.

Lemma inserted_inserts_of clk pl :
  inserted (inserts_of clk pl) = scan_record clk pl <$> devolutionProcesses pl.
Proof.
  unfold inserted, inserts_of. induction (devolutionProcesses pl) as [|p ps IH]; simpl; auto.
  f_equal. exact IH.
Qed.

Lemma writes_of_inserted clk pl ops :
  writes_of clk pl ops -> inserted ops ≡ₚ scan_record clk pl <$> devolutionProcesses pl.
Proof.
  intros (us & cs & -> & Hus & Hcs). unfold inserted. rewrite omap_app, Hus, Hcs.
  fold (inserted (updates_of clk pl)) (inserted (inserts_of clk pl)).
  rewrite inserted_updates_of, inserted_inserts_of. reflexivity.
Qed.

Lemma writes_of_update clk pl ops id t :
  writes_of clk pl ops ->
  OpUpdate id t ∈ ops <-> t = now clk /\ id ∈ (devolutionProcesses pl).*1.
Proof.
  intros (us & cs & -> & Hus & Hcs). rewrite elem_of_app, Hus, Hcs.
  unfold updates_of, inserts_of. rewrite !list_elem_of_fmap. split.
  - intros [(p & [= -> ->] & Hp) | (p & Hp & _)]; [|discriminate].
    split; [reflexivity|]. exists p. auto.
  - intros [-> (p & -> & Hp)]. left. exists p. auto.
Qed.

(** The write phase of the handler is one such sequence: its updates in the
    order of the array, then its inserts in the order of the array. *)
Lemma writes_of_handler clk pl :
  writes_of clk pl (updates_of clk pl ++ inserts_of clk pl).
Proof. exists (updates_of clk pl), (inserts_of clk pl). auto. Qed.

Lemma run_updates_of clk pl : forall s,
  run_ops (updates_of clk pl) s =
  (update_all no_faults (now clk) 0 (devolutionProcesses pl) s).2.
Proof.
  unfold updates_of. generalize 0%nat.
  induction (devolutionProcesses pl) as [|p ps IH]; intros i s; [reflexivity|].
  rewrite update_all_cons. simpl. apply IH.
Qed.

Lemma run_inserts_of clk pl : forall s,
  run_ops (inserts_of clk pl) s =
  set_qrScanRecords (qrScanRecords s ++ (scan_record clk pl <$> devolutionProcesses pl)) s.
Proof.
  intros s. rewrite run_ops_frame, run_ops_scans, inserted_inserts_of.
  assert (Hm : medicationProcesses (run_ops (inserts_of clk pl) s) = medicationProcesses s).
  { apply map_eq. intros id. apply run_ops_miss. intros t Hin.
    unfold inserts_of in Hin. apply list_elem_of_fmap in Hin as (p & Hp & _). discriminate. }
  rewrite Hm. destruct s; reflexivity.
Qed.

Lemma commit_as_ops clk pl s :
  rows_current s (devolutionProcesses pl) ->
  (POST_commit no_faults clk pl s).2 = run_ops (updates_of clk pl ++ inserts_of clk pl) s.
Proof.
  intros Hcur. rewrite (POST_commit_spec _ _ _ _ Hcur). simpl.
  rewrite !none_throws_no_faults. simpl.
  rewrite survivors_all by apply none_throws_no_faults.
  rewrite run_ops_app, run_inserts_of, run_updates_of, update_all_scans. reflexivity.
Qed.

Lemma commit_response clk pl s :
  rows_current s (devolutionProcesses pl) ->
  (POST_commit no_faults clk pl s).1 =
  DispatchRegistered (length (devolutionProcesses pl)) (selectedLine pl).
Proof.
  intros Hcur.
  apply (commit_success no_faults clk pl s Hcur); apply none_throws_no_faults.
Qed.

(** C1, amended: the status update is keyed by the row id alone and goes
    through whatever the row's status is; it is not a compare-and-set on
    IN_PROGRESS.  Take two calls none of whose writes fails, the second
    running its eligibility query after any number [k] of the first call's
    writes, the remaining writes of the two landing merged in any order.  A
    row eligible for the first call is also taken by the second exactly when
    the second call's query ran before the first call's update of that row
    and the row matches the second call's batch and line; then both calls
    update it and both write a scan record for it.  In every such run each
    call updates every row of its own eligible set, answers with its full
    count and appends one scan record per row, and every row of either set
    ends DISPATCHED_FROM_PHARMACY.  The write phase of the handler run on its
    own is one of these sequences. *)
Theorem race_both_dispatch clk1 clk2 s req1 req2 pl1 pl2 ops1 ops2 k sched :
  POST_resolve clk1 s req1 = Continue pl1 ->
  writes_of clk1 pl1 ops1 ->
  POST_resolve clk2 (run_ops (take k ops1) s) req2 = Continue pl2 ->
  writes_of clk2 pl2 ops2 ->
  let ps1 := devolutionProcesses pl1 in
  let ps2 := devolutionProcesses pl2 in
  let final := run_ops (weave sched (drop k ops1) ops2) (run_ops (take k ops1) s) in
  (forall s' t id mp0, medicationProcesses s' !! id = Some mp0 ->
     medicationProcesses (apply_op (OpUpdate id t) s') !! id = Some (dispatched t mp0)) /\
  (forall id mp, (id, mp) ∈ ps1 ->
     ((id, mp) ∈ ps2 <->
      (OpUpdate id (now clk1) ∉ take k ops1) /\
      devolution_where s (dp_id (currentDailyProcess pl2))
        (destinationLineId (plan_body pl2)) mp)) /\
  (forall id mp, (id, mp) ∈ ps1 \/ (id, mp) ∈ ps2 ->
     status <$> medicationProcesses final !! id = Some DISPATCHED_FROM_PHARMACY) /\
  (exists new,
     qrScanRecords final = (qrScanRecords s ++ new)%list /\
     new ≡ₚ ((scan_record clk1 pl1 <$> ps1) ++ (scan_record clk2 pl2 <$> ps2))%list) /\
  (forall others,
     (POST_commit no_faults clk1 pl1 (run_ops others s)).1 =
       DispatchRegistered (length ps1) (selectedLine pl1) /\
     (POST_commit no_faults clk2 pl2 (run_ops others (run_ops (take k ops1) s))).1 =
       DispatchRegistered (length ps2) (selectedLine pl2)) /\
  (POST_commit no_faults clk1 pl1 s).2 =
    run_ops (updates_of clk1 pl1 ++ inserts_of clk1 pl1)%list s.
Proof.
  intros H1 Hw1 H2 Hw2 ps1 ps2 final.
  set (pre := take k ops1) in *. set (rest := drop k ops1) in *. set (mid := run_ops pre s) in *.
  assert (Hops1 : ops1 = (pre ++ rest)%list) by (symmetry; apply take_drop).
  pose proof (plan_rows_current _ _ _ _ H1) as Hc1.
  pose proof (plan_rows_current _ _ _ _ H2) as Hc2.
  pose proof (POST_resolve_Continue _ _ _ _ H1) as (_ & Hps1 & _).
  pose proof (POST_resolve_Continue _ _ _ _ H2) as (_ & Hps2 & _).
  fold ps1 in Hps1, Hc1. fold ps2 in Hps2, Hc2.
  assert (Hfinal : final = run_ops (pre ++ weave sched rest ops2)%list s)
    by (rewrite run_ops_app; reflexivity).
  assert (Hperm : weave sched rest ops2 ≡ₚ (rest ++ ops2)%list) by apply weave_Permutation.
  split; [|split; [|split; [|split; [|split]]]].
  - intros s' t id mp0 Hl. rewrite apply_op_lookup, bool_decide_eq_true_2, Hl; reflexivity.
  - intros id mp Hin1.
    assert (Hl : medicationProcesses s !! id = Some mp)
      by (rewrite Hps1 in Hin1; apply findMany_spec in Hin1 as [Hl _]; exact Hl).
    rewrite Hps2, findMany_spec. unfold mid. rewrite run_ops_devolution_where. split.
    + intros [Hmid Hw]. split; [|exact Hw]. intros Hin.
      destruct (run_ops_hit pre id (now clk1) s Hin) as [t' Ht'].
      rewrite Hmid, Hl in Ht'. injection Ht' as Hmp.
      destruct Hw as (_ & _ & Hst & _). rewrite Hmp in Hst. discriminate.
    + intros [Hno Hw]. split; [|exact Hw]. rewrite run_ops_miss; [exact Hl|].
      intros t Hin. assert (Hin' : OpUpdate id t ∈ ops1)
        by (rewrite Hops1; apply elem_of_app; left; exact Hin).
      apply (writes_of_update _ _ _ _ _ Hw1) in Hin' as [-> _]. exact (Hno Hin).
  - intros id mp [Hin | Hin].
    + assert (Hl : medicationProcesses s !! id = Some mp)
        by (rewrite Hps1 in Hin; apply findMany_spec in Hin as [Hl _]; exact Hl).
      assert (Hup : OpUpdate id (now clk1) ∈ (pre ++ weave sched rest ops2)%list).
      { rewrite Hperm, app_assoc, <- Hops1. apply elem_of_app. left.
        apply (writes_of_update _ _ _ _ _ Hw1). split; [reflexivity|].
        apply list_elem_of_fmap. exists (id, mp). auto. }
      rewrite Hfinal. destruct (run_ops_hit _ id _ s Hup) as [t' ->].
      rewrite Hl. reflexivity.
    + assert (Hl : medicationProcesses mid !! id = Some mp)
        by (rewrite Hps2 in Hin; apply findMany_spec in Hin as [Hl _]; exact Hl).
      assert (Hup : OpUpdate id (now clk2) ∈ weave sched rest ops2).
      { rewrite Hperm. apply elem_of_app. right.
        apply (writes_of_update _ _ _ _ _ Hw2). split; [reflexivity|].
        apply list_elem_of_fmap. exists (id, mp). auto. }
      unfold final. destruct (run_ops_hit _ id _ mid Hup) as [t' ->].
      rewrite Hl. reflexivity.
  - exists (inserted (pre ++ weave sched rest ops2)%list).
    split; [rewrite Hfinal; apply run_ops_scans|].
    unfold inserted. rewrite Hperm, app_assoc, <- Hops1, omap_app.
    fold (inserted ops1) (inserted ops2).
    rewrite (writes_of_inserted _ _ _ Hw1), (writes_of_inserted _ _ _ Hw2). reflexivity.
  - intros others. split; apply commit_response; apply run_ops_rows_current; assumption.
  - apply commit_as_ops. exact Hc1.
Qed.

(** The second call for line 2 runs its query when one update of the first
    call, that of mp-3, has landed: it takes mp-1 and mp-2 and not mp-3.  The
    writes that remain land in turns: mp-1 and mp-2 are updated twice and get
    two scan records each, mp-3 one. *)
Lemma race_both_dispatch_witness :
  take 1 Ward.writes_line2 = [OpUpdate "mp-3" (now Ward.clock)] /\
  (("mp-3", Ward.in_devolution "pat-3") ∉ devolutionProcesses Ward.plan_line2_late) /\
  ("mp-1", Ward.in_devolution "pat-1") ∈ devolutionProcesses Ward.plan_line2_late /\
  status <$> medicationProcesses
    (run_ops (weave Ward.turns (drop 1 Ward.writes_line2) Ward.writes_line2_late)
       (run_ops (take 1 Ward.writes_line2) Ward.store)) !! "mp-1" =
    Some DISPATCHED_FROM_PHARMACY /\
  sr_patientId <$> qrScanRecords
    (run_ops (weave Ward.turns (drop 1 Ward.writes_line2) Ward.writes_line2_late)
       (run_ops (take 1 Ward.writes_line2) Ward.store)) =
    ["pat-3"; "pat-1"; "pat-1"; "pat-2"; "pat-2"] /\
  (POST_commit no_faults Ward.later Ward.plan_line2_late
     (run_ops (take 1 Ward.writes_line2) Ward.store)).1 =
    DispatchRegistered 2 {| displayName := "Línea 2" |}.
Proof.
  assert (H1 : POST_resolve Ward.clock Ward.store Ward.scan_line2 = Continue Ward.plan_line2)
    by (vm_compute; reflexivity).
  assert (H2 : POST_resolve Ward.later (run_ops (take 1 Ward.writes_line2) Ward.store)
                 Ward.scan_line2 = Continue Ward.plan_line2_late)
    by (vm_compute; reflexivity).
  assert (Htake : take 1 Ward.writes_line2 = [OpUpdate "mp-3" (now Ward.clock)])
    by (vm_compute; reflexivity).
  destruct (race_both_dispatch Ward.clock Ward.later Ward.store Ward.scan_line2
              Ward.scan_line2 Ward.plan_line2 Ward.plan_line2_late Ward.writes_line2
              Ward.writes_line2_late 1 Ward.turns H1 (writes_of_handler _ _) H2
              (writes_of_handler _ _)) as (_ & B & C & _ & E & _).
  split; [exact Htake|]. split; [|split; [|split; [|split]]].
  - intros Hin. apply (B "mp-3" (Ward.in_devolution "pat-3")) in Hin as [Hno _].
    + apply Hno. rewrite Htake. left.
    + apply list_elem_of_In. vm_compute. tauto.
  - apply (B "mp-1" (Ward.in_devolution "pat-1")).
    + apply list_elem_of_In. vm_compute. tauto.
    + split; [|repeat split; reflexivity].
      rewrite Htake. intros Hin. apply list_elem_of_In in Hin.
      destruct Hin as [Hin | []]. discriminate Hin.
  - apply (C "mp-1" (Ward.in_devolution "pat-1")). left.
    apply list_elem_of_In. vm_compute. tauto.
  - vm_compute. reflexivity.
  - exact (proj2 (E [])).
Defined.

(** The schedule in which both calls read before either writes and the first
    call's writes land before the second's is the merge with no write taken
    back: the store it ends in is the one of the two write sequences run one
    after the other. *)
Lemma POST_race_as_ops clk1 clk2 s req1 req2 pl1 pl2 :
  POST_resolve clk1 s req1 = Continue pl1 ->
  POST_resolve clk2 s req2 = Continue pl2 ->
  (POST_race no_faults no_faults clk1 clk2 s req1 req2).2 =
  run_ops (weave [] (updates_of clk1 pl1 ++ inserts_of clk1 pl1)%list
                    (updates_of clk2 pl2 ++ inserts_of clk2 pl2)%list) s.
Proof.
  intros H1 H2. unfold POST_race. rewrite H1, H2. simpl POST_finish.
  pose proof (plan_rows_current _ _ _ _ H1) as Hc1.
  pose proof (plan_rows_current _ _ _ _ H2) as Hc2.
  pose proof (commit_as_ops clk1 pl1 s Hc1) as E1.
  destruct (POST_commit no_faults clk1 pl1 s) as [r1 s1]. simpl in E1. subst s1.
  pose proof (commit_as_ops clk2 pl2 _
                (run_ops_rows_current (updates_of clk1 pl1 ++ inserts_of clk1 pl1)%list _ _ Hc2))
    as E2.
  destruct (POST_commit no_faults clk2 pl2 _) as [r2 s2]. simpl in E2. subst s2.
  simpl. rewrite !run_ops_app. reflexivity.
Qed.

(** C2, counterexample: the status update of mp-6 goes through and the
    insert of its scan record fails.  The call answers 500, the row is left
    DISPATCHED_FROM_PHARMACY and there is no scan record for it. *)
Lemma receipt_lost_when_insert_fails :
  (POST Ward.inserts_fail Ward.clock Ward.store Ward.scan_line1).1 = InternalServerError /\
  status <$> medicationProcesses
    (POST Ward.inserts_fail Ward.clock Ward.store Ward.scan_line1).2 !! "mp-6" =
    Some DISPATCHED_FROM_PHARMACY /\
  qrScanRecords (POST Ward.inserts_fail Ward.clock Ward.store Ward.scan_line1).2 = [].
Proof. vm_compute. repeat split; reflexivity. Qed.

Lemma survivors_elem {A : Type} throws (xs : list A) x : forall i,
  x ∈ survivors throws i xs -> x ∈ xs.
Proof.
  induction xs as [|y xs IH]; intros i; simpl; [auto|].
  destruct (throws i).
  - intros H. right. eapply IH; eauto.
  - intros [-> | H]%elem_of_cons; [left | right; eapply IH; eauto].
Qed.

(** C2, amended: the status updates and the scan-record inserts are separate
    store writes, the inserts being issued only once every update has gone
    through.  A write that went through is never undone: each eligible row
    whose update did not fail is DISPATCHED_FROM_PHARMACY in the end, each one
    whose update failed is as before.  Scan records are appended only if no
    update failed, and then one for each row whose insert did not fail, so a
    scan record is only ever written for a row that was dispatched, while a
    dispatched row is left without scan record when its insert, or any
    update, fails.  The call answers 200 exactly when no write failed and 500
    otherwise. *)
Theorem commit_without_transaction f clk s req pl :
  POST_resolve clk s req = Continue pl ->
  let ps := devolutionProcesses pl in
  let r := (POST f clk s req).1 in
  let s' := (POST f clk s req).2 in
  let updates_ok := none_throws (update_throws f) 0 (length ps) in
  let inserts_ok := none_throws (create_throws f) 0 (length ps) in
  (forall j id mp, ps !! j = Some (id, mp) ->
     medicationProcesses s' !! id =
       Some (if update_throws f j then mp else dispatched (now clk) mp)) /\
  qrScanRecords s' =
    (qrScanRecords s ++
     (if updates_ok then scan_record clk pl <$> survivors (create_throws f) 0 ps else []))%list /\
  (forall rec, rec ∈ drop (length (qrScanRecords s)) (qrScanRecords s') ->
     exists id mp, (id, mp) ∈ ps /\ rec = scan_record clk pl (id, mp) /\
                   medicationProcesses s' !! id = Some (dispatched (now clk) mp)) /\
  r = if updates_ok && inserts_ok
      then DispatchRegistered (length ps) (selectedLine pl)
      else InternalServerError.
Proof.
  intros Hres ps r s' updates_ok inserts_ok. subst r s'.
  pose proof (plan_rows_current _ _ _ _ Hres) as Hcur.
  rewrite (POST_plan _ _ _ _ _ Hres).
  pose proof (POST_commit_spec f clk pl s Hcur) as Hspec. simpl in Hspec.
  fold ps updates_ok inserts_ok in Hspec.
  assert (Hscans : qrScanRecords (POST_commit f clk pl s).2 =
    (qrScanRecords s ++
     (if updates_ok then scan_record clk pl <$> survivors (create_throws f) 0 ps else []))%list).
  { rewrite Hspec. destruct updates_ok; simpl; [reflexivity|].
    rewrite update_all_scans, app_nil_r. reflexivity. }
  split; [|split; [exact Hscans | split]].
  - intros j id mp Hj. destruct (update_throws f j) eqn:Hthrow.
    + rewrite POST_commit_medicationProcesses, update_all_miss.
      * apply POST_resolve_Continue in Hres as (_ & Hps & _).
        apply list_elem_of_lookup_2 in Hj. fold ps in Hps. rewrite Hps in Hj.
        apply findMany_spec in Hj as [Hl _]. exact Hl.
      * intros j' [id' mp'] Hj' Hid. simpl in Hid. subst id'. simpl.
        assert (j' = j) as ->; [|exact Hthrow].
        apply POST_resolve_Continue in Hres as (_ & Hps & _). fold ps in Hps, Hj'.
        eapply (NoDup_lookup ps.*1 j' j id).
        -- rewrite Hps. apply findMany_NoDup.
        -- rewrite list_lookup_fmap, Hj'. reflexivity.
        -- rewrite list_lookup_fmap, Hj. reflexivity.
    + apply (commit_dispatches f clk pl s j); auto.
  - rewrite Hscans, drop_app_length. destruct updates_ok eqn:Hu; [|intros rec H; inversion H].
    intros rec Hin. apply list_elem_of_fmap in Hin as ([id mp] & -> & Hin).
    apply survivors_elem in Hin. exists id, mp. repeat split; auto.
    apply commit_dispatches_all; auto.
  - rewrite Hspec. destruct updates_ok; simpl; [|reflexivity].
    destruct inserts_ok; reflexivity.
Qed.

Lemma commit_without_transaction_witness :
  (POST Ward.second_update_fails Ward.clock Ward.store Ward.scan_line2).1 =
    InternalServerError /\
  length (qrScanRecords
            (POST Ward.second_update_fails Ward.clock Ward.store Ward.scan_line2).2) = 0%nat.
Proof.
  destruct (commit_without_transaction Ward.second_update_fails Ward.clock Ward.store
              Ward.scan_line2 Ward.plan_line2)
    as (_ & Hs & _ & Hr); [vm_compute; reflexivity|].
  split; [exact Hr | rewrite Hs; reflexivity].
Defined.

(** ** Order of the checks *)

Lemma POST_line_not_found f clk s req user body :
  accepted s req user body ->
  findUnique (lines s) (destinationLineId body) = Continue None ->
  POST f clk s req = (InvalidDestinationLine, s).
Proof.
  intros Ha Hl. unfold POST, POST_finish. rewrite (POST_resolve_accepted _ _ _ _ _ Ha), Hl. reflexivity.
Qed.




(** ** Validation of the body *)

Lemma commit_scans f clk pl s :
  rows_current s (devolutionProcesses pl) ->
  qrScanRecords (POST_commit f clk pl s).2 =
    (qrScanRecords s ++
     (if none_throws (update_throws f) 0 (length (devolutionProcesses pl))
      then scan_record clk pl <$> survivors (create_throws f) 0 (devolutionProcesses pl)
      else []))%list.
Proof.
  intros Hcur. rewrite (POST_commit_spec f clk pl s Hcur); simpl.
  destruct (none_throws (update_throws f) _ _); simpl; [reflexivity|].
  rewrite update_all_scans, app_nil_r. reflexivity.
Qed.

(** C8, counterexample: the temperature is the string "hot".  The request is
    not rejected: the eligible row is dispatched, and when the inserts go
    through the call answers 200 and stores the string as the temperature;
    when they fail the call answers 500 with the row dispatched all the
    same. *)
Lemma non_numeric_temperature_accepted :
  (temperature <$> req_body Ward.scan_hot) = Some (JString "hot") /\
  (is_number <$> (temperature <$> req_body Ward.scan_hot)) = Some false /\
  (POST no_faults Ward.clock Ward.store Ward.scan_hot).1 =
    DispatchRegistered 1 {| displayName := "Línea 1" |} /\
  status <$> medicationProcesses
    (POST no_faults Ward.clock Ward.store Ward.scan_hot).2 !! "mp-6" =
    Some DISPATCHED_FROM_PHARMACY /\
  sr_temperature <$> qrScanRecords (POST no_faults Ward.clock Ward.store Ward.scan_hot).2 =
    [JString "hot"] /\
  (POST Ward.inserts_fail Ward.clock Ward.store Ward.scan_hot).1 = InternalServerError /\
  status <$> medicationProcesses
    (POST Ward.inserts_fail Ward.clock Ward.store Ward.scan_hot).2 !! "mp-6" =
    Some DISPATCHED_FROM_PHARMACY.
Proof. vm_compute. repeat split; reflexivity. Qed.

(** C8, amended: the handler checks that the fields are present, not what
    type they have.  For a signed-in user with a profile and a body with a
    qrId: a temperature that is undefined or null is answered 400
    "Temperature is required"; with a temperature present, a falsy
    destinationLineId is answered 400 "Destination line is required" and a
    truthy one with a falsy transactionType 400 "Transaction type is
    required"; with all four present, a destinationLineId that is a string
    naming no Line is answered 400 "Invalid destination line", and one that
    is not a string makes the lookup throw and is answered 500; in all five
    the store is left as it was.  Any other temperature, numeric or not,
    passes: if the remaining checks pass as well, every eligible row whose
    update does not fail is dispatched, and every scan record the call
    appends carries the temperature of the body as it came, one such record
    per eligible row when no write fails. *)
Theorem validation_is_presence_only f clk s req user body :
  auth_error (auth req) = false ->
  session_user (auth req) = Some user ->
  is_Some (profiles s !! user_id user) ->
  req_body req = Some body ->
  truthy (qrId body) = true ->
  (nullish (temperature body) = true ->
   POST f clk s req = (TemperatureRequired, s)) /\
  (nullish (temperature body) = false -> truthy (destinationLineId body) = false ->
   POST f clk s req = (DestinationLineRequired, s)) /\
  (nullish (temperature body) = false -> truthy (destinationLineId body) = true ->
   truthy (transactionType body) = false ->
   POST f clk s req = (TransactionTypeRequired, s)) /\
  (nullish (temperature body) = false -> truthy (destinationLineId body) = true ->
   truthy (transactionType body) = true ->
   (forall l, destinationLineId body = JString l -> lines s !! l = None ->
      POST f clk s req = (InvalidDestinationLine, s)) /\
   ((forall l, destinationLineId body <> JString l) ->
      POST f clk s req = (InternalServerError, s) /\
      resp_status (POST f clk s req).1 = 500)) /\
  (forall line qr dp j id mp,
     resolved clk s req user body line qr dp ->
     medicationProcess_findMany s (dp_id dp) (destinationLineId body) !! j = Some (id, mp) ->
     update_throws f j = false ->
     medicationProcesses (POST f clk s req).2 !! id = Some (dispatched (now clk) mp)) /\
  (forall line qr dp,
     resolved clk s req user body line qr dp ->
     exists new,
       qrScanRecords (POST f clk s req).2 = (qrScanRecords s ++ new)%list /\
       (forall r, r ∈ new -> sr_temperature r = temperature body) /\
       ((forall j, update_throws f j = false) -> (forall j, create_throws f j = false) ->
        forall id mp,
          medicationProcesses s !! id = Some mp ->
          devolution_where s (dp_id dp) (destinationLineId body) mp ->
          exists r, r ∈ new /\ sr_patientId r = patientId mp /\
                    sr_temperature r = temperature body)).
Proof.
  intros He Hu [pr Hp] Hb Hq. split; [|split; [|split; [|split; [|split]]]].
  - intros Ht. unfold POST, POST_finish, POST_resolve. rewrite He, Hu; simpl. rewrite Hp; simpl.
    rewrite Hb; simpl. rewrite Hq, Ht. reflexivity.
  - intros Ht Hl. unfold POST, POST_finish, POST_resolve. rewrite He, Hu; simpl. rewrite Hp; simpl.
    rewrite Hb; simpl. rewrite Hq, Ht, Hl. reflexivity.
  - intros Ht Hl Hx. unfold POST, POST_finish, POST_resolve. rewrite He, Hu; simpl.
    rewrite Hp; simpl. rewrite Hb; simpl. rewrite Hq, Ht, Hl, Hx. reflexivity.
  - intros Ht Hl Hx. split.
    + intros l Hdl Hnone. apply (POST_line_not_found _ _ _ _ user body).
      * repeat split; eauto.
      * rewrite Hdl. simpl. rewrite Hnone. reflexivity.
    + intros Hns.
      assert (Hthrow : findUnique (lines s) (destinationLineId body) = Throw).
      { destruct (destinationLineId body) as [| | | |l|]; try reflexivity.
        destruct (Hns l). reflexivity. }
      assert (HP : POST f clk s req = (InternalServerError, s)).
      { unfold POST, POST_finish, POST_resolve. rewrite He, Hu; simpl.
        rewrite Hp; simpl. rewrite Hb; simpl. rewrite Hq, Ht, Hl, Hx. simpl.
        rewrite Hthrow. reflexivity. }
      rewrite HP. split; reflexivity.
  - intros line qr dp j id mp Hres Hj Hok.
    assert (Hne : medicationProcess_findMany s (dp_id dp) (destinationLineId body) <> [])
      by (intros Hnil; rewrite Hnil in Hj; discriminate).
    pose proof (resolved_plan _ _ _ _ _ _ _ _ Hres Hne) as Hpl.
    rewrite (POST_plan _ _ _ _ _ Hpl).
    apply (commit_dispatches f clk _ s j); auto.
    apply (plan_rows_current _ _ _ _ Hpl).
  - intros line qr dp Hres.
    destruct (decide (medicationProcess_findMany s (dp_id dp) (destinationLineId body) = []))
      as [Hnil | Hne].
    + rewrite (POST_nothing_eligible f _ _ _ _ _ _ _ _ Hres Hnil). exists []. simpl.
      split; [rewrite app_nil_r; reflexivity|]. split.
      * intros r Hr. inversion Hr.
      * intros _ _ id mp Hl Hw.
        assert (Hin : (id, mp) ∈ medicationProcess_findMany s (dp_id dp) (destinationLineId body))
          by (apply findMany_spec; auto).
        rewrite Hnil in Hin. inversion Hin.
    + pose proof (resolved_plan _ _ _ _ _ _ _ _ Hres Hne) as Hpl.
      pose proof (plan_rows_current _ _ _ _ Hpl) as Hcur.
      rewrite (POST_plan _ _ _ _ _ Hpl), (commit_scans _ _ _ _ Hcur). simpl.
      set (ps := medicationProcess_findMany s (dp_id dp) (destinationLineId body)) in *.
      eexists. split; [reflexivity|]. split.
      * intros r Hr. destruct (none_throws (update_throws f) 0 (length ps)); [|inversion Hr].
        apply list_elem_of_fmap in Hr as (p & -> & _). reflexivity.
      * intros Hnu Hnc id mp Hl Hw.
        rewrite (none_throws_pointwise _ 0 _ Hnu).
        rewrite survivors_all by (apply none_throws_pointwise; exact Hnc).
        exists (scan_record clk (Build_Plan user body line qr dp ps) (id, mp)).
        split; [|split; reflexivity].
        apply list_elem_of_fmap. exists (id, mp). split; [reflexivity|].
        apply findMany_spec. auto.
Qed.

Lemma validation_is_presence_only_witness :
  medicationProcesses (POST no_faults Ward.clock Ward.store Ward.scan_hot).2 !! "mp-6" =
    Some (dispatched (now Ward.clock) (Ward.in_devolution "pat-5")) /\
  exists new,
    qrScanRecords (POST no_faults Ward.clock Ward.store Ward.scan_hot).2 =
      (qrScanRecords Ward.store ++ new)%list /\
    exists r, r ∈ new /\ sr_patientId r = "pat-5" /\ sr_temperature r = JString "hot".
Proof.
  assert (Hres : resolved Ward.clock Ward.store Ward.scan_hot {| user_id := "user-1" |}
                   {| qrId := JString "QR-DEV"; temperature := JString "hot";
                      destinationLineId := JString "line-1";
                      transactionType := JString "DEVOLUCION" |}
                   {| displayName := "Línea 1" |}
                   {| qr_id := "qr-1"; isActive := true;
                      qr_type := "PHARMACY_DISPATCH_DEVOLUTION" |} Ward.today).
  { repeat split; try reflexivity. vm_compute. eauto. }
  destruct (validation_is_presence_only no_faults Ward.clock Ward.store Ward.scan_hot
              {| user_id := "user-1" |}
              {| qrId := JString "QR-DEV"; temperature := JString "hot";
                 destinationLineId := JString "line-1";
                 transactionType := JString "DEVOLUCION" |})
    as (_ & _ & _ & _ & Hrow & Hrec); try reflexivity.
  { vm_compute. eauto. }
  split.
  - apply (Hrow _ _ _ 0%nat "mp-6" (Ward.in_devolution "pat-5") Hres); reflexivity.
  - destruct (Hrec _ _ _ Hres) as (new & Hnew & _ & Hall). exists new. split; [exact Hnew|].
    apply (Hall (fun _ => eq_refl) (fun _ => eq_refl) "mp-6" (Ward.in_devolution "pat-5")).
    + reflexivity.
    + repeat split; reflexivity.
Defined.

(** ** The daily process of the call *)

Lemma findFirst_spec gte lt tbl dp :
  dailyProcess_findFirst gte lt tbl = Some dp ->
  dp ∈ tbl /\ date_where gte lt dp /\
  forall d, d ∈ tbl -> date_where gte lt d -> createdAt d <= createdAt dp.
Proof.
  unfold dailyProcess_findFirst. intros H.
  pose proof (latest_created_In _ _ H) as Hin.
  apply list_elem_of_filter in Hin as [Hw Hin]. repeat split; auto.
  - apply Hw.
  - apply Hw.
  - intros d Hd Hdw. apply (latest_created_max _ _ _ H).
    apply list_elem_of_filter. auto.
Qed.

Lemma findFirst_Some gte lt tbl d :
  d ∈ tbl -> date_where gte lt d -> is_Some (dailyProcess_findFirst gte lt tbl).
Proof.
  intros Hd Hw. apply latest_created_Some. intros Hnil.
  assert (Hin : d ∈ filter (date_where gte lt) tbl) by (apply list_elem_of_filter; auto).
  rewrite Hnil in Hin. inversion Hin.
Qed.

(** C10, the slip: the upper bound of the query is the exclusive [lt] of
    23:59:59.999, so a DailyProcess row dated at the last millisecond of the
    current calendar day is outside the window, however late it was created.
    The call never takes it as current batch: the batch it takes, if any, is
    dated earlier, every scan record it appends carries the id of such an
    earlier row, and when every row of the table is dated at that
    millisecond the call answers 400 "No active daily process" and writes
    nothing. *)
Theorem last_millisecond_of_day_left_out f clk s req d :
  d ∈ dailyProcesses s ->
  date d = endOfDay clk ->
  ~ date_where (startOfDay clk) (endOfDay clk) d /\
  (forall dp,
     dailyProcess_findFirst (startOfDay clk) (endOfDay clk) (dailyProcesses s) = Some dp ->
     date dp < date d) /\
  (forall pl, POST_resolve clk s req = Continue pl -> date (currentDailyProcess pl) < date d) /\
  (forall r, r ∈ drop (length (qrScanRecords s)) (qrScanRecords (POST f clk s req).2) ->
     exists dp, dp ∈ dailyProcesses s /\ date dp < date d /\ sr_dailyProcessId r = dp_id dp) /\
  (forall user body line qr,
     accepted s req user body ->
     findUnique (lines s) (destinationLineId body) = Continue (Some line) ->
     findUnique (qrCodes s) (qrId body) = Continue (Some qr) ->
     valid_qr qr ->
     (forall d', d' ∈ dailyProcesses s -> date d' = date d) ->
     POST f clk s req = (NoActiveDailyProcess, s)).
Proof.
  intros Hd Hdate.
  assert (Hfirst : forall dp,
            dailyProcess_findFirst (startOfDay clk) (endOfDay clk) (dailyProcesses s) = Some dp ->
            dp ∈ dailyProcesses s /\ date dp < date d).
  { intros dp Hdp. apply findFirst_spec in Hdp as (Hin & [_ Hlt] & _).
    rewrite Hdate. auto. }
  assert (Hplan : forall pl, POST_resolve clk s req = Continue pl ->
            currentDailyProcess pl ∈ dailyProcesses s /\ date (currentDailyProcess pl) < date d).
  { intros pl Hres. apply POST_resolve_Continue in Hres as ((_ & _ & _ & _ & Hdp) & _).
    apply Hfirst. exact Hdp. }
  split; [|split; [|split; [|split]]].
  - intros [_ Hlt]. lia.
  - intros dp Hdp. apply Hfirst. exact Hdp.
  - intros pl Hres. apply Hplan. exact Hres.
  - intros r.
    destruct (POST_resolve clk s req) as [r0| |pl] eqn:Hres;
      try (rewrite POST_no_plan by (intros pl'; congruence);
           rewrite drop_all; intros H; inversion H).
    destruct (Hplan pl eq_refl) as [Hin Hlt].
    rewrite (POST_plan _ _ _ _ _ Hres).
    rewrite (commit_scans _ _ _ _ (plan_rows_current _ _ _ _ Hres)), drop_app_length.
    destruct (none_throws _ _ _); [|intros H; inversion H].
    intros ([id mp] & -> & _)%list_elem_of_fmap. exists (currentDailyProcess pl). auto.
  - intros user body line qr Ha Hl Hq [Hact Hty] Hall.
    assert (Hnone : dailyProcess_findFirst (startOfDay clk) (endOfDay clk) (dailyProcesses s)
                    = None).
    { destruct (dailyProcess_findFirst _ _ _) as [dp|] eqn:Hdp; [|reflexivity].
      destruct (Hfirst dp eq_refl) as [Hin Hlt]. rewrite (Hall dp Hin) in Hlt. lia. }
    unfold POST, POST_finish.
    rewrite (POST_resolve_accepted _ _ _ _ _ Ha), Hl; simpl. rewrite Hq; simpl.
    rewrite Hact, Hty; simpl. rewrite Hnone. reflexivity.
Qed.

(** Two batches of the day, the one created later dated 23:59:59.999: the
    call for line 2 takes the one created earlier, and its three scan records
    carry that one's id. *)
Lemma last_millisecond_of_day_left_out_witness :
  createdAt Ward.today < createdAt Ward.closing /\
  startOfDay Ward.clock <= date Ward.closing < startOfDay Ward.clock + msPerDay /\
  dailyProcess_findFirst (startOfDay Ward.clock) (endOfDay Ward.clock)
    (dailyProcesses Ward.store_closing) = Some Ward.today /\
  date Ward.today < date Ward.closing /\
  sr_dailyProcessId <$>
    qrScanRecords (POST no_faults Ward.clock Ward.store_closing Ward.scan_line2).2 =
    ["dp-today"; "dp-today"; "dp-today"] /\
  status <$> medicationProcesses
    (POST no_faults Ward.clock Ward.store_closing Ward.scan_line2).2 !! "mp-9" =
    Some IN_PROGRESS.
Proof.
  destruct (last_millisecond_of_day_left_out no_faults Ward.clock Ward.store_closing
              Ward.scan_line2 Ward.closing) as (_ & Hfirst & _).
  - simpl. right. left.
  - reflexivity.
  - assert (Hdp : dailyProcess_findFirst (startOfDay Ward.clock) (endOfDay Ward.clock)
                    (dailyProcesses Ward.store_closing) = Some Ward.today)
      by (vm_compute; reflexivity).
    split; [reflexivity|]. split; [vm_compute; split; [discriminate|reflexivity]|].
    split; [exact Hdp|]. split; [exact (Hfirst _ Hdp)|].
    split; vm_compute; reflexivity.
Defined.

(** * Further properties of the handler *)

(** ** Which response, and when *)

Lemma findUnique_no_Return {V : Type} (tbl : gmap string V) key r :
  findUnique tbl key <> Return r.
Proof. destruct key; discriminate. Qed.

Lemma POST_resolve_Return clk s req r :
  POST_resolve clk s req = Return r ->
  (r = Unauthorized /\
   (auth_error (auth req) = true \/ session_user (auth req) = None)) \/
  (r = ProfileNotFound /\ auth_error (auth req) = false /\
   exists user, session_user (auth req) = Some user /\ profiles s !! user_id user = None) \/
  (resp_status r = 400 /\ auth_error (auth req) = false /\
   exists user, session_user (auth req) = Some user /\ is_Some (profiles s !! user_id user)).
Proof.
  unfold POST_resolve.
  destruct (auth_error (auth req)); simpl; [intros [= <-]; auto|].
  destruct (session_user (auth req)) as [user|]; simpl; [|intros [= <-]; auto].
  destruct (profiles s !! user_id user) as [pr|] eqn:Hp; simpl;
    [|intros [= <-]; right; left; eauto].
  intros H. right. right. split; [|split; [reflexivity|eauto]].
  revert H.
  destruct (req_body req) as [body|]; simpl; [|discriminate].
  destruct (truthy (qrId body)); simpl; [|intros [= <-]; reflexivity].
  destruct (nullish (temperature body)); simpl; [intros [= <-]; reflexivity|].
  destruct (truthy (destinationLineId body)); simpl; [|intros [= <-]; reflexivity].
  destruct (truthy (transactionType body)); simpl; [|intros [= <-]; reflexivity].
  destruct (findUnique (lines s) (destinationLineId body)) as [r0| |[line|]] eqn:Hl;
    simpl; try discriminate;
    [destruct (findUnique_no_Return _ _ _ Hl) | | intros [= <-]; reflexivity].
  destruct (findUnique (qrCodes s) (qrId body)) as [r0| |[qr|]] eqn:Hq;
    simpl; try discriminate;
    [destruct (findUnique_no_Return _ _ _ Hq) | | intros [= <-]; reflexivity].
  destruct (isActive qr && String.eqb (qr_type qr) _); simpl; [|intros [= <-]; reflexivity].
  destruct (dailyProcess_findFirst _ _ _) as [dp|]; simpl; [|intros [= <-]; reflexivity].
  destruct (length _ =? 0)%nat; simpl; [intros [= <-]; reflexivity | discriminate].
Qed.

Lemma POST_resolve_Throw clk s req :
  POST_resolve clk s req = Throw ->
  auth_error (auth req) = false /\
  exists user, session_user (auth req) = Some user /\ is_Some (profiles s !! user_id user).
Proof.
  unfold POST_resolve.
  destruct (auth_error (auth req)); simpl; [discriminate|].
  destruct (session_user (auth req)) as [user|]; simpl; [|discriminate].
  destruct (profiles s !! user_id user) as [pr|] eqn:Hp; simpl; [|discriminate].
  intros _. split; [reflexivity|]. exists user. rewrite Hp. eauto.
Qed.

Lemma resolved_signed_in clk s req user body line qr dp :
  resolved clk s req user body line qr dp ->
  auth_error (auth req) = false /\
  exists user, session_user (auth req) = Some user /\ is_Some (profiles s !! user_id user).
Proof. intros ((He & Hu & Hp & _) & _). eauto. Qed.

Lemma commit_status f clk pl s :
  rows_current s (devolutionProcesses pl) ->
  resp_status (POST_commit f clk pl s).1 = 200 \/
  resp_status (POST_commit f clk pl s).1 = 500.
Proof.
  intros Hcur. rewrite (POST_commit_spec _ _ _ _ Hcur); simpl.
  destruct (none_throws (update_throws f) _ _); simpl; [|auto].
  destruct (none_throws (create_throws f) _ _); simpl; auto.
Qed.

(** The batch of the call: when at least one DailyProcess row has its date
    in the window of the query -- from 00:00:00.000 local time up to, but
    not including, 23:59:59.999 -- the call takes as current batch a row of
    that window whose createdAt is the latest among the rows of the window.
    That one row is the batch of the plan and of the eligibility query; every
    MedicationProcess row the call changes belongs to it, every scan record
    the call appends carries its id, and a call that answers 200 has
    appended one such record for each row of the eligibility query, of which
    there is at least one. *)
Theorem current_batch_is_latest f clk s req :
  (exists d, d ∈ dailyProcesses s /\ date_where (startOfDay clk) (endOfDay clk) d) ->
  exists dp,
    dailyProcess_findFirst (startOfDay clk) (endOfDay clk) (dailyProcesses s) = Some dp /\
    dp ∈ dailyProcesses s /\
    date_where (startOfDay clk) (endOfDay clk) dp /\
    (forall d, d ∈ dailyProcesses s -> date_where (startOfDay clk) (endOfDay clk) d ->
               createdAt d <= createdAt dp) /\
    (forall pl, POST_resolve clk s req = Continue pl ->
       currentDailyProcess pl = dp /\
       devolutionProcesses pl =
         medicationProcess_findMany s (dp_id dp) (destinationLineId (plan_body pl))) /\
    (forall id, medicationProcesses (POST f clk s req).2 !! id <> medicationProcesses s !! id ->
       exists mp, medicationProcesses s !! id = Some mp /\ dailyProcessId mp = dp_id dp) /\
    (forall rec, rec ∈ drop (length (qrScanRecords s)) (qrScanRecords (POST f clk s req).2) ->
       sr_dailyProcessId rec = dp_id dp) /\
    (resp_status (POST f clk s req).1 = 200 ->
     exists pl,
       POST_resolve clk s req = Continue pl /\
       devolutionProcesses pl <> [] /\
       qrScanRecords (POST f clk s req).2 =
         (qrScanRecords s ++ (scan_record clk pl <$> devolutionProcesses pl))%list /\
       forall p, p ∈ devolutionProcesses pl ->
         sr_dailyProcessId (scan_record clk pl p) = dp_id dp /\
         sr_patientId (scan_record clk pl p) = patientId p.2).
Proof.
  intros (d & Hd & Hw).
  destruct (findFirst_Some _ _ _ _ Hd Hw) as [dp Hdp]. exists dp.
  destruct (findFirst_spec _ _ _ _ Hdp) as (Hin & Hwin & Hmax).
  split; [exact Hdp|]. split; [exact Hin|]. split; [exact Hwin|]. split; [exact Hmax|].
  assert (Hplan : forall pl, POST_resolve clk s req = Continue pl ->
            currentDailyProcess pl = dp /\
            devolutionProcesses pl =
              medicationProcess_findMany s (dp_id dp) (destinationLineId (plan_body pl))).
  { intros pl Hres. apply POST_resolve_Continue in Hres as (Hr & Hps & _).
    destruct Hr as (_ & _ & _ & _ & Hdp').
    assert (currentDailyProcess pl = dp) as Heq by congruence.
    rewrite Heq in Hps. auto. }
  split; [exact Hplan|]. split; [|split].
  - intros id Hchg.
    destruct (POST_resolve clk s req) as [r| |pl] eqn:Hres;
      try (rewrite POST_no_plan in Hchg by (intros pl'; congruence); congruence).
    destruct (Hplan pl eq_refl) as [_ Hps].
    rewrite (POST_plan _ _ _ _ _ Hres), POST_commit_medicationProcesses in Hchg.
    destruct (decide (id ∈ (devolutionProcesses pl).*1)) as [Hmem | Hnot].
    + apply list_elem_of_fmap in Hmem as ([id' mp] & -> & Hmem).
      rewrite Hps in Hmem. apply findMany_spec in Hmem as [Hl (Hdaily & _)]. eauto.
    + destruct Hchg. apply update_all_miss. intros j p Hj Hid. destruct Hnot.
      apply list_elem_of_fmap. exists p. split; [auto|]. eapply list_elem_of_lookup_2; eauto.
  - intros rec.
    destruct (POST_resolve clk s req) as [r| |pl] eqn:Hres;
      try (rewrite POST_no_plan by (intros pl'; congruence);
           rewrite drop_all; intros H; inversion H).
    destruct (Hplan pl eq_refl) as [Hcur _].
    rewrite (POST_plan _ _ _ _ _ Hres).
    rewrite (commit_scans _ _ _ _ (plan_rows_current _ _ _ _ Hres)), drop_app_length.
    destruct (none_throws _ _ _); [|intros H; inversion H].
    intros ([id mp] & -> & _)%list_elem_of_fmap. simpl. rewrite Hcur. reflexivity.
  - intros H200. unfold POST, POST_finish in H200.
    destruct (POST_resolve clk s req) as [r| |pl] eqn:Hres.
    + simpl in H200.
      destruct (POST_resolve_Return _ _ _ _ Hres) as [[-> _] | [[-> _] | [H400 _]]];
        [discriminate H200 | discriminate H200 | rewrite H400 in H200; discriminate H200].
    + discriminate H200.
    + pose proof (plan_rows_current _ _ _ _ Hres) as Hcur.
      destruct (commit_status_200 _ _ _ _ Hcur H200) as [Hu Hc].
      destruct (commit_success f clk pl s Hcur Hu Hc) as [_ Hscans].
      exists pl. split; [reflexivity|].
      split; [apply (POST_resolve_Continue _ _ _ _ Hres)|].
      split; [rewrite (POST_plan _ _ _ _ _ Hres); exact Hscans|].
      intros p _. destruct (Hplan pl eq_refl) as [Hdp' _]. simpl. rewrite Hdp'. auto.
Qed.

Lemma current_batch_is_latest_witness :
  (forall d, d ∈ dailyProcesses Ward.store_reopened ->
     date_where (startOfDay Ward.clock) (endOfDay Ward.clock) d ->
     createdAt d <= createdAt Ward.reopened) /\
  (forall rec,
     rec ∈ drop (length (qrScanRecords Ward.store_reopened))
             (qrScanRecords (POST no_faults Ward.clock Ward.store_reopened Ward.scan_line3).2) ->
     sr_dailyProcessId rec = dp_id Ward.reopened) /\
  (exists pl,
     POST_resolve Ward.clock Ward.store_reopened Ward.scan_line3 = Continue pl /\
     devolutionProcesses pl <> [] /\
     qrScanRecords (POST no_faults Ward.clock Ward.store_reopened Ward.scan_line3).2 =
       (qrScanRecords Ward.store_reopened ++ (scan_record Ward.clock pl <$> devolutionProcesses pl))%list /\
     forall p, p ∈ devolutionProcesses pl ->
       sr_dailyProcessId (scan_record Ward.clock pl p) = dp_id Ward.reopened /\
       sr_patientId (scan_record Ward.clock pl p) = patientId p.2).
Proof.
  destruct (current_batch_is_latest no_faults Ward.clock Ward.store_reopened Ward.scan_line3)
    as (dp & Hdp & _ & _ & Hmax & _ & _ & Hrec & H200).
  - exists Ward.today. split; [simpl; left|].
    vm_compute. split; [discriminate | reflexivity].
  - assert (dp = Ward.reopened) as -> by (vm_compute in Hdp; injection Hdp as <-; reflexivity).
    split; [exact Hmax|]. split; [exact Hrec|]. apply H200. reflexivity.
Defined.

Lemma POST_unauthorized f clk s req :
  auth_error (auth req) = true \/ session_user (auth req) = None ->
  POST f clk s req = (Unauthorized, s).
Proof.
  intros H. unfold POST, POST_finish, POST_resolve.
  destruct (auth_error (auth req)); simpl; [reflexivity|].
  destruct H as [H | ->]; [discriminate | reflexivity].
Qed.

Lemma POST_without_profile f clk s req user :
  auth_error (auth req) = false -> session_user (auth req) = Some user ->
  profiles s !! user_id user = None ->
  POST f clk s req = (ProfileNotFound, s).
Proof.
  intros He Hu Hp. unfold POST, POST_finish, POST_resolve.
  rewrite He, Hu; simpl. rewrite Hp. reflexivity.
Qed.

(** The status of the answer is one of 200, 400, 401, 404 and 500.  It is 401
    exactly when the session lookup reported an error or carried no user,
    and 404 exactly when there is a user without Profile row: no later check
    and no store failure answers with either. *)
Theorem status_codes f clk s req :
  (resp_status (POST f clk s req).1 = 200 \/ resp_status (POST f clk s req).1 = 400 \/
   resp_status (POST f clk s req).1 = 401 \/ resp_status (POST f clk s req).1 = 404 \/
   resp_status (POST f clk s req).1 = 500) /\
  (resp_status (POST f clk s req).1 = 401 <->
   auth_error (auth req) = true \/ session_user (auth req) = None) /\
  (resp_status (POST f clk s req).1 = 404 <->
   auth_error (auth req) = false /\
   exists user, session_user (auth req) = Some user /\ profiles s !! user_id user = None).
Proof.
  assert (Hsigned :
    auth_error (auth req) = false /\
    (exists user, session_user (auth req) = Some user /\ is_Some (profiles s !! user_id user)) ->
    ~ (auth_error (auth req) = true \/ session_user (auth req) = None) /\
    ~ (auth_error (auth req) = false /\
       exists user, session_user (auth req) = Some user /\ profiles s !! user_id user = None)).
  { intros (He & user & Hu & [pr Hp]). split.
    - intros [H | H]; congruence.
    - intros (_ & user' & Hu' & Hp'). congruence. }
  destruct (POST_resolve clk s req) as [r| |pl] eqn:Hres.
  - assert (HP : POST f clk s req = (r, s))
      by (unfold POST, POST_finish; rewrite Hres; reflexivity).
    rewrite HP; simpl.
    destruct (POST_resolve_Return _ _ _ _ Hres)
      as [[-> Ha] | [(-> & He & user & Hu & Hp) | (H400 & Hs)]].
    + split; [simpl; auto|]. split; [split; auto|].
      split; [discriminate|]. intros (He & user & Hu & _). destruct Ha; congruence.
    + split; [simpl; auto 6|]. split; [|split; eauto].
      split; [discriminate|]. intros [H | H]; congruence.
    + destruct (Hsigned Hs) as [N1 N2]. rewrite H400.
      split; [auto|]. split; (split; [discriminate | intros H; tauto]).
  - assert (HP : POST f clk s req = (InternalServerError, s))
      by (unfold POST, POST_finish; rewrite Hres; reflexivity).
    rewrite HP; simpl. destruct (Hsigned (POST_resolve_Throw _ _ _ Hres)) as [N1 N2].
    split; [auto 6|]. split; (split; [discriminate | intros H; tauto]).
  - rewrite (POST_plan _ _ _ _ _ Hres).
    pose proof (plan_rows_current _ _ _ _ Hres) as Hcur.
    apply POST_resolve_Continue in Hres as (Hr & _).
    destruct (Hsigned (resolved_signed_in _ _ _ _ _ _ _ _ Hr)) as [N1 N2].
    destruct (commit_status f clk pl s Hcur) as [-> | ->];
      (split; [auto 6|]; split; (split; [discriminate | intros H; tauto])).
Qed.

(** The row of an eligible process after the write phase: dispatched if its
    update went through, as it was if its update failed. *)
Lemma commit_row f clk pl s dpId line j id mp :
  devolutionProcesses pl = medicationProcess_findMany s dpId line ->
  devolutionProcesses pl !! j = Some (id, mp) ->
  medicationProcesses (POST_commit f clk pl s).2 !! id =
    Some (if update_throws f j then mp else dispatched (now clk) mp).
Proof.
  intros Hps Hj.
  assert (Hcur : rows_current s (devolutionProcesses pl))
    by (rewrite Hps; apply findMany_rows_current).
  destruct (update_throws f j) eqn:Hthrow; [|apply (commit_dispatches f clk pl s j); auto].
  rewrite POST_commit_medicationProcesses, update_all_miss.
  - apply list_elem_of_lookup_2 in Hj. rewrite Hps in Hj.
    apply findMany_spec in Hj as [Hl _]. exact Hl.
  - intros j' [id' mp'] Hj' Hid. simpl in Hid. subst id'. simpl.
    assert (j' = j) as ->; [|exact Hthrow].
    eapply (NoDup_lookup (devolutionProcesses pl).*1 j' j id).
    + rewrite Hps. apply findMany_NoDup.
    + rewrite list_lookup_fmap, Hj'. reflexivity.
    + rewrite list_lookup_fmap, Hj. reflexivity.
Qed.

(** An answer 400, 401 or 404 means that the store is exactly as it was, and
    an answer 200 means that it is not: what was written can only have been
    written by a call that answered 200 or 500. *)
Theorem client_errors_write_nothing f clk s req :
  (resp_status (POST f clk s req).1 = 400 \/ resp_status (POST f clk s req).1 = 401 \/
   resp_status (POST f clk s req).1 = 404 -> (POST f clk s req).2 = s) /\
  (resp_status (POST f clk s req).1 = 200 -> (POST f clk s req).2 <> s).
Proof.
  destruct (POST_resolve clk s req) as [r| |pl] eqn:Hres.
  - assert (HP : POST f clk s req = (r, s))
      by (unfold POST, POST_finish; rewrite Hres; reflexivity).
    rewrite HP; simpl. split; [reflexivity|].
    destruct (POST_resolve_Return _ _ _ _ Hres) as [[-> _] | [(-> & _) | (H400 & _)]];
      [discriminate | discriminate | rewrite H400; discriminate].
  - assert (HP : POST f clk s req = (InternalServerError, s))
      by (unfold POST, POST_finish; rewrite Hres; reflexivity).
    rewrite HP; simpl. split; [reflexivity | discriminate].
  - rewrite (POST_plan _ _ _ _ _ Hres).
    pose proof (plan_rows_current _ _ _ _ Hres) as Hcur.
    apply POST_resolve_Continue in Hres as (_ & Hps & Hne). split.
    + destruct (commit_status f clk pl s Hcur) as [-> | ->];
        intros [H | [H | H]]; discriminate.
    + intros H200 Heq. destruct (commit_status_200 _ _ _ _ Hcur H200) as [Hu _].
      assert (Hex : exists id mp, (id, mp) ∈ devolutionProcesses pl).
      { destruct (devolutionProcesses pl) as [|[id mp] ps]; [congruence|].
        exists id, mp. left. }
      destruct Hex as (id & mp & Hin).
      pose proof (commit_dispatches_all f clk pl s id mp Hcur Hu Hin) as Hrow.
      rewrite Hps in Hin. apply findMany_spec in Hin as [Hl (_ & _ & Hst & _)].
      rewrite Heq, Hl in Hrow. injection Hrow as Hrow.
      rewrite Hrow in Hst. discriminate.
Qed.

Lemma client_errors_write_nothing_witness :
  (POST Ward.inserts_fail Ward.clock Ward.store Ward.scan_line3).2 = Ward.store /\
  (POST no_faults Ward.clock Ward.store Ward.scan_line2).2 <> Ward.store.
Proof.
  split.
  - apply (client_errors_write_nothing Ward.inserts_fail Ward.clock Ward.store Ward.scan_line3).
    left. vm_compute. reflexivity.
  - apply (client_errors_write_nothing no_faults Ward.clock Ward.store Ward.scan_line2).
    vm_compute. reflexivity.
Defined.

(** An answer 200 is only given to a request that passed every check -- a
    signed-in user with a profile, the four fields present, the line, an
    active QR code of the right type and today's daily process found, at
    least one eligible row -- and in a run in which none of the writes for
    the eligible rows failed; the count it reports is their number. *)
Theorem success_means_checks_passed f clk s req :
  resp_status (POST f clk s req).1 = 200 ->
  exists user body line qr dp,
    resolved clk s req user body line qr dp /\
    let ps := medicationProcess_findMany s (dp_id dp) (destinationLineId body) in
    (1 <= length ps)%nat /\
    (forall j, (j < length ps)%nat -> update_throws f j = false /\ create_throws f j = false) /\
    (POST f clk s req).1 = DispatchRegistered (length ps) line.
Proof.
  destruct (POST_resolve clk s req) as [r| |pl] eqn:Hres.
  - assert (HP : POST f clk s req = (r, s))
      by (unfold POST, POST_finish; rewrite Hres; reflexivity).
    rewrite HP; simpl.
    destruct (POST_resolve_Return _ _ _ _ Hres) as [[-> _] | [(-> & _) | (H400 & _)]];
      [discriminate | discriminate | rewrite H400; discriminate].
  - assert (HP : POST f clk s req = (InternalServerError, s))
      by (unfold POST, POST_finish; rewrite Hres; reflexivity).
    rewrite HP; simpl. discriminate.
  - rewrite (POST_plan _ _ _ _ _ Hres).
    pose proof (plan_rows_current _ _ _ _ Hres) as Hcur.
    apply POST_resolve_Continue in Hres as (Hr & Hps & Hne).
    intros H200. destruct (commit_status_200 _ _ _ _ Hcur H200) as [Hu Hc].
    destruct (commit_success f clk pl s Hcur Hu Hc) as [Hresp _].
    exists (plan_user pl), (plan_body pl), (selectedLine pl), (qrCode pl),
      (currentDailyProcess pl).
    split; [exact Hr|]. simpl. rewrite <- Hps. split; [|split].
    + destruct (devolutionProcesses pl); [congruence | simpl; lia].
    + intros j Hj. split.
      * apply (proj1 (none_throws_spec _ _ _) Hu j Hj).
      * apply (proj1 (none_throws_spec _ _ _) Hc j Hj).
    + exact Hresp.
Qed.

Lemma success_means_checks_passed_witness :
  exists user body line qr dp,
    resolved Ward.clock Ward.store Ward.scan_line2 user body line qr dp /\
    (POST no_faults Ward.clock Ward.store Ward.scan_line2).1 =
      DispatchRegistered
        (length (medicationProcess_findMany Ward.store (dp_id dp) (destinationLineId body)))
        line.
Proof.
  destruct (success_means_checks_passed no_faults Ward.clock Ward.store Ward.scan_line2)
    as (user & body & line & qr & dp & Hr & _ & _ & Hresp); [vm_compute; reflexivity|].
  exists user, body, line, qr, dp. split; assumption.
Defined.

(** ** What a call leaves alone *)

(** The tables the handler only reads -- profiles, lines, QR codes, daily
    processes, patients and services -- are the same after any call, failed
    writes included. *)
Theorem reference_tables_untouched f clk s req :
  profiles (POST f clk s req).2 = profiles s /\
  lines (POST f clk s req).2 = lines s /\
  qrCodes (POST f clk s req).2 = qrCodes s /\
  dailyProcesses (POST f clk s req).2 = dailyProcesses s /\
  patients (POST f clk s req).2 = patients s /\
  services (POST f clk s req).2 = services s.
Proof.
  unfold POST, POST_finish.
  destruct (POST_resolve clk s req) as [r| |pl]; simpl; auto 7.
  rewrite POST_commit_frame. simpl. auto 7.
Qed.

(** A call that runs alone, its writes landing on the store its query read,
    creates and deletes no MedicationProcess row, and leaves a row either
    exactly as it was or, being an IN_PROGRESS row of step DEVOLUCION, as the
    same row with status DISPATCHED_FROM_PHARMACY and the call's timestamp:
    patient, daily process and step of a row never change.  Only the query
    looks at the status: the update is keyed by the id alone, so the write
    phase run on a store that has moved since the query overwrites the row
    whatever its status has become. *)
Theorem process_rows_kept f clk s req id :
  match medicationProcesses s !! id with
  | None => medicationProcesses (POST f clk s req).2 !! id = None
  | Some mp =>
      medicationProcesses (POST f clk s req).2 !! id = Some mp \/
      (status mp = IN_PROGRESS /\ step mp = "DEVOLUCION" /\
       medicationProcesses (POST f clk s req).2 !! id = Some (dispatched (now clk) mp))
  end /\
  (forall pl s' j mp mp',
     devolutionProcesses pl !! j = Some (id, mp) ->
     update_throws f j = false ->
     medicationProcesses s' !! id = Some mp' ->
     medicationProcesses (POST_commit f clk pl s').2 !! id = Some (dispatched (now clk) mp')).
Proof.
  split; [|intros pl s' j mp mp' Hj Hok Hl;
           rewrite POST_commit_medicationProcesses;
           pose proof (update_all_hit f (now clk) _ 0 s' j (id, mp) Hj Hok) as Hhit;
           simpl in Hhit; rewrite Hhit, Hl; reflexivity].
  destruct (POST_resolve clk s req) as [r| |pl] eqn:Hres;
    try (rewrite POST_no_plan by (intros pl'; congruence);
         destruct (medicationProcesses s !! id); auto).
  rewrite (POST_plan _ _ _ _ _ Hres), POST_commit_medicationProcesses.
  apply POST_resolve_Continue in Hres as (_ & Hps & _).
  destruct (decide (id ∈ (devolutionProcesses pl).*1)) as [Hmem | Hnot].
  - apply list_elem_of_fmap in Hmem as ([id' mp] & -> & Hmem). simpl.
    rewrite Hps in Hmem. apply findMany_spec in Hmem as [Hl (_ & Hstep & Hst & _)].
    rewrite Hl.
    destruct (update_all_lookup f (now clk) (devolutionProcesses pl) 0 s id') as [-> | ->];
      rewrite Hl; simpl; auto.
  - rewrite update_all_miss.
    + destruct (medicationProcesses s !! id); auto.
    + intros j p Hj Hid. destruct Hnot.
      apply list_elem_of_fmap. exists p. split; [auto|]. eapply list_elem_of_lookup_2; eauto.
Qed.

(** Every scan record there was is still there, in place, and each record a
    call appends is the receipt of one eligible row that the call dispatched:
    it carries that row's patient, the id of the QR code registered under the
    scanned qrId, the session's user, today's daily process, the temperature,
    destination line and transaction type of the body as they came, and the
    call's timestamp. *)
Theorem scan_records_appended f clk s req :
  exists new,
    qrScanRecords (POST f clk s req).2 = (qrScanRecords s ++ new)%list /\
    forall rec, rec ∈ new ->
      exists user body qr dp id mp,
        session_user (auth req) = Some user /\
        req_body req = Some body /\
        findUnique (qrCodes s) (qrId body) = Continue (Some qr) /\
        dailyProcess_findFirst (startOfDay clk) (endOfDay clk) (dailyProcesses s) = Some dp /\
        medicationProcesses s !! id = Some mp /\
        devolution_where s (dp_id dp) (destinationLineId body) mp /\
        medicationProcesses (POST f clk s req).2 !! id = Some (dispatched (now clk) mp) /\
        rec = {| sr_patientId := patientId mp; qrCodeId := qr_id qr;
                 scannedBy := user_id user; sr_dailyProcessId := dp_id dp;
                 sr_temperature := temperature body;
                 sr_destinationLineId := destinationLineId body;
                 sr_transactionType := transactionType body;
                 scannedAt := now clk |}.
Proof.
  destruct (POST_resolve clk s req) as [r| |pl] eqn:Hres;
    try (exists []; rewrite POST_no_plan by (intros pl'; congruence);
         rewrite app_nil_r; split; [reflexivity | intros rec H; inversion H]).
  rewrite (POST_plan _ _ _ _ _ Hres).
  pose proof (plan_rows_current _ _ _ _ Hres) as Hcur.
  apply POST_resolve_Continue in Hres as (Hr & Hps & _).
  destruct Hr as ((_ & Hu & _ & Hb & _) & _ & Hq & _ & Hdp).
  eexists. split; [apply (commit_scans _ _ _ _ Hcur)|].
  destruct (none_throws (update_throws f) 0 _) eqn:Hok; [|intros rec H; inversion H].
  intros rec ([id mp] & -> & Hin)%list_elem_of_fmap. apply survivors_elem in Hin.
  exists (plan_user pl), (plan_body pl), (qrCode pl), (currentDailyProcess pl), id, mp.
  pose proof (commit_dispatches_all f clk pl s id mp Hcur Hok Hin) as Hrow.
  rewrite Hps in Hin. apply findMany_spec in Hin as [Hl Hw].
  repeat split; auto; apply Hw.
Qed.

(** ** One call after another *)

Lemma POST_row f clk s req id :
  medicationProcesses (POST f clk s req).2 !! id = medicationProcesses s !! id \/
  exists mp body dp,
    medicationProcesses s !! id = Some mp /\
    req_body req = Some body /\
    devolution_where s (dp_id dp) (destinationLineId body) mp /\
    medicationProcesses (POST f clk s req).2 !! id = Some (dispatched (now clk) mp).
Proof.
  destruct (POST_resolve clk s req) as [r| |pl] eqn:Hres;
    try (rewrite POST_no_plan by (intros pl'; congruence); auto).
  rewrite (POST_plan _ _ _ _ _ Hres), POST_commit_medicationProcesses.
  apply POST_resolve_Continue in Hres as (Hr & Hps & _).
  destruct Hr as ((_ & _ & _ & Hb & _) & _).
  destruct (decide (id ∈ (devolutionProcesses pl).*1)) as [Hmem | Hnot].
  - apply list_elem_of_fmap in Hmem as ([id' mp] & -> & Hmem). simpl.
    rewrite Hps in Hmem. apply findMany_spec in Hmem as [Hl Hw].
    destruct (update_all_lookup f (now clk) (devolutionProcesses pl) 0 s id') as [-> | ->];
      [auto|]. right. exists mp, (plan_body pl), (currentDailyProcess pl).
    rewrite Hl. auto.
  - left. apply update_all_miss. intros j p Hj Hid. destruct Hnot.
    apply list_elem_of_fmap. exists p. split; [auto|]. eapply list_elem_of_lookup_2; eauto.
Qed.

Lemma POST_frame f clk s req :
  (POST f clk s req).2 =
  set_qrScanRecords (qrScanRecords (POST f clk s req).2)
    (set_medicationProcesses (medicationProcesses (POST f clk s req).2) s).
Proof.
  unfold POST, POST_finish. destruct (POST_resolve clk s req) as [r| |pl]; simpl;
    try (destruct s; reflexivity).
  apply POST_commit_frame.
Qed.

Lemma POST_devolution_where f clk s req :
  devolution_where (POST f clk s req).2 = devolution_where s.
Proof. rewrite POST_frame. reflexivity. Qed.

Lemma findMany_other_line f clk s req dpId line :
  (forall body, req_body req = Some body -> destinationLineId body <> line) ->
  medicationProcess_findMany (POST f clk s req).2 dpId line =
  medicationProcess_findMany s dpId line.
Proof.
  intros Hline. unfold medicationProcess_findMany. f_equal.
  apply map_eq. intros id. apply option_eq. intros mp0.
  rewrite !map_lookup_filter_Some. simpl. rewrite POST_devolution_where.
  destruct (POST_row f clk s req id) as [-> | (mp & body & dp & Hl & Hb & Hw & Hl')];
    [reflexivity|].
  rewrite Hl, Hl'. split.
  - intros [[= <-] (_ & _ & Hst & _)]. discriminate.
  - intros [[= <-] (_ & _ & _ & Hpl')]. destruct Hw as (_ & _ & _ & Hpl).
    destruct (Hline body Hb). congruence.
Qed.

(** A call for one line does not take any row out of, or put any row into,
    the eligible set of another line, whichever daily process is asked for:
    the query gives the same rows after the call as before. *)
Theorem other_line_eligible_set_kept f clk s req dpId line :
  (forall body, req_body req = Some body -> destinationLineId body <> line) ->
  medicationProcess_findMany (POST f clk s req).2 dpId line =
  medicationProcess_findMany s dpId line.
Proof.
  intros Hline. unfold medicationProcess_findMany. f_equal.
  apply map_eq. intros id. apply option_eq. intros mp0.
  rewrite !map_lookup_filter_Some. simpl. rewrite POST_devolution_where.
  destruct (POST_row f clk s req id) as [-> | (mp & body & dp & Hl & Hb & Hw & Hl')];
    [reflexivity|].
  rewrite Hl, Hl'. split.
  - intros [[= <-] (_ & _ & Hst & _)]. discriminate.
  - intros [[= <-] (_ & _ & _ & Hpl')]. destruct Hw as (_ & _ & _ & Hpl).
    destruct (Hline body Hb). congruence.
Qed.

Lemma other_line_eligible_set_kept_witness :
  medicationProcess_findMany (POST no_faults Ward.clock Ward.store Ward.scan_line2).2
    "dp-today" (JString "line-1") =
  medicationProcess_findMany Ward.store "dp-today" (JString "line-1").
Proof.
  apply (other_line_eligible_set_kept no_faults Ward.clock Ward.store Ward.scan_line2).
  intros body Hb. injection Hb as <-. discriminate.
Defined.

Lemma POST_resolve_ext clk s s1 req :
  s1 = set_qrScanRecords (qrScanRecords s1) (set_medicationProcesses (medicationProcesses s1) s) ->
  (forall body dpId, req_body req = Some body ->
     medicationProcess_findMany s1 dpId (destinationLineId body) =
     medicationProcess_findMany s dpId (destinationLineId body)) ->
  POST_resolve clk s1 req = POST_resolve clk s req.
Proof.
  intros Hs1 Hfm.
  assert (Hp : profiles s1 = profiles s) by (rewrite Hs1; reflexivity).
  assert (Hl : lines s1 = lines s) by (rewrite Hs1; reflexivity).
  assert (Hq : qrCodes s1 = qrCodes s) by (rewrite Hs1; reflexivity).
  assert (Hd : dailyProcesses s1 = dailyProcesses s) by (rewrite Hs1; reflexivity).
  unfold POST_resolve. rewrite Hp, Hl, Hq, Hd.
  destruct (auth_error (auth req)); simpl; [reflexivity|].
  destruct (session_user (auth req)) as [user|]; simpl; [|reflexivity].
  destruct (profiles s !! user_id user); simpl; [|reflexivity].
  destruct (req_body req) as [body|] eqn:Hb; simpl; [|reflexivity].
  destruct (truthy (qrId body)); simpl; [|reflexivity].
  destruct (nullish (temperature body)); simpl; [reflexivity|].
  destruct (truthy (destinationLineId body)); simpl; [|reflexivity].
  destruct (truthy (transactionType body)); simpl; [|reflexivity].
  destruct (findUnique (lines s) (destinationLineId body)) as [r0| |[line|]];
    simpl; try reflexivity.
  destruct (findUnique (qrCodes s) (qrId body)) as [r0| |[qr|]]; simpl; try reflexivity.
  destruct (isActive qr && String.eqb (qr_type qr) _); simpl; [|reflexivity].
  destruct (dailyProcess_findFirst _ _ _) as [dp|]; simpl; [|reflexivity].
  rewrite (Hfm body (dp_id dp) eq_refl). reflexivity.
Qed.

(** What a call answers does not depend on whether a call for another line
    ran before it: after any call for line A, failed writes included, a call
    for a different line B gets the answer it would have got on the store as
    it was before. *)
Theorem earlier_call_other_line f1 f2 clk1 clk2 s reqA reqB :
  (forall a b, req_body reqA = Some a -> req_body reqB = Some b ->
     destinationLineId a <> destinationLineId b) ->
  (POST f2 clk2 (POST f1 clk1 s reqA).2 reqB).1 = (POST f2 clk2 s reqB).1.
Proof.
  intros Hlines.
  assert (Hres : POST_resolve clk2 (POST f1 clk1 s reqA).2 reqB = POST_resolve clk2 s reqB).
  { apply POST_resolve_ext; [apply POST_frame|].
    intros b dpId Hb. apply findMany_other_line. intros a Ha. eauto. }
  unfold POST at 1 3. rewrite Hres.
  destruct (POST_resolve clk2 s reqB) as [r| |pl] eqn:Hpl; simpl; try reflexivity.
  pose proof (plan_rows_current _ _ _ _ Hpl) as Hcur.
  pose proof (plan_rows_current _ _ _ _ Hres) as Hcur1.
  rewrite (POST_commit_spec _ _ _ _ Hcur), (POST_commit_spec _ _ _ _ Hcur1). simpl.
  destruct (none_throws (update_throws f2) _ _); reflexivity.
Qed.

Lemma earlier_call_other_line_witness :
  (POST no_faults Ward.later
     (POST Ward.inserts_fail Ward.clock Ward.store Ward.scan_line1).2 Ward.scan_line2).1 =
  (POST no_faults Ward.later Ward.store Ward.scan_line2).1.
Proof.
  apply (earlier_call_other_line Ward.inserts_fail no_faults Ward.clock Ward.later
           Ward.store Ward.scan_line1 Ward.scan_line2).
  intros a b Ha Hb. injection Ha as <-. injection Hb as <-. discriminate.
Defined.

(** Two calls for different lines that are in flight together, both reading
    before either writes, leave the same store and get the same answers as
    if the second had started only after the first had finished. *)
Theorem race_other_line_serial f1 f2 clk1 clk2 s reqA reqB :
  (forall a b, req_body reqA = Some a -> req_body reqB = Some b ->
     destinationLineId a <> destinationLineId b) ->
  POST_race f1 f2 clk1 clk2 s reqA reqB =
  ((POST f1 clk1 s reqA).1,
   (POST f2 clk2 (POST f1 clk1 s reqA).2 reqB).1,
   (POST f2 clk2 (POST f1 clk1 s reqA).2 reqB).2).
Proof.
  intros Hlines.
  assert (Hres : POST_resolve clk2 (POST f1 clk1 s reqA).2 reqB = POST_resolve clk2 s reqB).
  { apply POST_resolve_ext; [apply POST_frame|].
    intros b dpId Hb. apply findMany_other_line. intros a Ha. eauto. }
  unfold POST_race. unfold POST at 2 4. rewrite Hres. unfold POST.
  destruct (POST_finish f1 clk1 (POST_resolve clk1 s reqA) s) as [r1 s1]. simpl.
  destruct (POST_finish f2 clk2 (POST_resolve clk2 s reqB) s1) as [r2 s2]. reflexivity.
Qed.

Lemma race_other_line_serial_witness :
  POST_race no_faults no_faults Ward.clock Ward.later Ward.store Ward.scan_line1 Ward.scan_line2 =
  ((POST no_faults Ward.clock Ward.store Ward.scan_line1).1,
   (POST no_faults Ward.later (POST no_faults Ward.clock Ward.store Ward.scan_line1).2
      Ward.scan_line2).1,
   (POST no_faults Ward.later (POST no_faults Ward.clock Ward.store Ward.scan_line1).2
      Ward.scan_line2).2).
Proof.
  apply (race_other_line_serial no_faults no_faults Ward.clock Ward.later Ward.store
           Ward.scan_line1 Ward.scan_line2).
  intros a b Ha Hb. injection Ha as <-. injection Hb as <-. discriminate.
Defined.

(** ** Trying again after a failure *)

(** When every status update of a call went through, a second call on the
    same day with the same request finds nothing eligible, answers 400 and
    writes nothing, whether or not the scan-record inserts of the first call
    failed: the receipts a failed first call did not write are not written by
    trying again. *)
Theorem retry_after_failed_inserts f1 f2 clk1 clk2 s req user body line qr dp :
  resolved clk1 s req user body line qr dp ->
  medicationProcess_findMany s (dp_id dp) (destinationLineId body) <> [] ->
  (forall j, update_throws f1 j = false) ->
  startOfDay clk1 = startOfDay clk2 ->
  endOfDay clk1 = endOfDay clk2 ->
  POST f2 clk2 (POST f1 clk1 s req).2 req =
    (NoDevolutionProcesses line, (POST f1 clk1 s req).2) /\
  qrScanRecords (POST f1 clk1 s req).2 =
    (qrScanRecords s ++
     (scan_record clk1
        (Build_Plan user body line qr dp
           (medicationProcess_findMany s (dp_id dp) (destinationLineId body)))
      <$> survivors (create_throws f1) 0
            (medicationProcess_findMany s (dp_id dp) (destinationLineId body))))%list.
Proof.
  intros Hres Hne Hu Hday Hend.
  pose proof (resolved_plan _ _ _ _ _ _ _ _ Hres Hne) as Hpl.
  pose proof (plan_rows_current _ _ _ _ Hpl) as Hcur.
  assert (Hok : none_throws (update_throws f1) 0
                  (length (medicationProcess_findMany s (dp_id dp) (destinationLineId body)))
                = true) by (apply none_throws_pointwise; exact Hu).
  split.
  - apply (dispatch_again f1 f2 clk1 clk2 s req _ Hday Hend Hpl Hok).
  - rewrite (POST_plan _ _ _ _ _ Hpl), (commit_scans _ _ _ _ Hcur). simpl.
    rewrite Hok. reflexivity.
Qed.

Lemma retry_after_failed_inserts_witness :
  POST no_faults Ward.later (POST Ward.inserts_fail Ward.clock Ward.store Ward.scan_line2).2
    Ward.scan_line2 =
  (NoDevolutionProcesses {| displayName := "Línea 2" |},
   (POST Ward.inserts_fail Ward.clock Ward.store Ward.scan_line2).2) /\
  qrScanRecords (POST Ward.inserts_fail Ward.clock Ward.store Ward.scan_line2).2 = [].
Proof.
  assert (Hres : resolved Ward.clock Ward.store Ward.scan_line2
                   (plan_user Ward.plan_line2) (plan_body Ward.plan_line2)
                   (selectedLine Ward.plan_line2) (qrCode Ward.plan_line2) Ward.today).
  { repeat split; try reflexivity. vm_compute. eauto. }
  destruct (retry_after_failed_inserts Ward.inserts_fail no_faults Ward.clock Ward.later
              Ward.store Ward.scan_line2 _ _ _ _ _ Hres) as [Hretry Hscans].
  - vm_compute. discriminate.
  - reflexivity.
  - vm_compute. reflexivity.
  - vm_compute. reflexivity.
  - split; [exact Hretry|]. rewrite Hscans. vm_compute. reflexivity.
Defined.

(** After a call, the rows that are still eligible for the same request are
    exactly the eligible rows whose status update failed in that call: a
    second call picks up what the first one missed and nothing else. *)
Theorem retry_picks_up_failed_updates f clk s req user body line qr dp id mp :
  resolved clk s req user body line qr dp ->
  (id, mp) ∈ medicationProcess_findMany (POST f clk s req).2 (dp_id dp) (destinationLineId body)
  <->
  exists j, medicationProcess_findMany s (dp_id dp) (destinationLineId body) !! j = Some (id, mp) /\
            update_throws f j = true.
Proof.
  intros Hres.
  destruct (decide (medicationProcess_findMany s (dp_id dp) (destinationLineId body) = []))
    as [Hnil | Hne].
  - rewrite (POST_nothing_eligible f _ _ _ _ _ _ _ _ Hres Hnil). simpl. rewrite Hnil.
    split; [intros H; inversion H | intros (j & Hj & _); discriminate].
  - pose proof (resolved_plan _ _ _ _ _ _ _ _ Hres Hne) as Hpl.
    rewrite findMany_spec, POST_devolution_where, (POST_plan _ _ _ _ _ Hpl).
    split.
    + intros [Hl Hw].
      assert (Hin : (id, mp) ∈ medicationProcess_findMany s (dp_id dp) (destinationLineId body)).
      { apply findMany_spec. split; [|exact Hw].
        pose proof (POST_row f clk s req id) as Hrow.
        rewrite (POST_plan _ _ _ _ _ Hpl) in Hrow.
        destruct Hrow as [<- | (mp' & _ & _ & _ & _ & _ & Hl')]; [exact Hl|].
        rewrite Hl in Hl'. injection Hl' as ->.
        destruct Hw as (_ & _ & Hst & _). discriminate. }
      apply list_elem_of_lookup_1 in Hin as [j Hj]. exists j. split; [exact Hj|].
      pose proof (commit_row f clk
                    (Build_Plan user body line qr dp
                       (medicationProcess_findMany s (dp_id dp) (destinationLineId body)))
                    s (dp_id dp) (destinationLineId body) j id mp eq_refl Hj) as Hrow.
      rewrite Hl in Hrow. destruct (update_throws f j); [reflexivity|].
      injection Hrow as Hrow. destruct Hw as (_ & _ & Hst & _).
      rewrite Hrow in Hst. discriminate.
    + intros (j & Hj & Hthrow).
      pose proof (commit_row f clk
                    (Build_Plan user body line qr dp
                       (medicationProcess_findMany s (dp_id dp) (destinationLineId body)))
                    s (dp_id dp) (destinationLineId body) j id mp eq_refl Hj) as Hrow.
      rewrite Hthrow in Hrow. split; [exact Hrow|].
      apply list_elem_of_lookup_2 in Hj. apply findMany_spec in Hj as [_ Hw]. exact Hw.
Qed.

Lemma retry_picks_up_failed_updates_witness :
  exists id mp,
    (id, mp) ∈ medicationProcess_findMany
      (POST Ward.second_update_fails Ward.clock Ward.store Ward.scan_line2).2
      "dp-today" (JString "line-2").
Proof.
  assert (Hres : resolved Ward.clock Ward.store Ward.scan_line2
                   (plan_user Ward.plan_line2) (plan_body Ward.plan_line2)
                   (selectedLine Ward.plan_line2) (qrCode Ward.plan_line2) Ward.today).
  { repeat split; try reflexivity. vm_compute. eauto. }
  exists "mp-1", (Ward.in_devolution "pat-1").
  apply (retry_picks_up_failed_updates Ward.second_update_fails Ward.clock Ward.store
           Ward.scan_line2 _ _ _ _ _ "mp-1" (Ward.in_devolution "pat-1") Hres).
  exists 1%nat. split; vm_compute; reflexivity.
Defined.

(** ** Today's window and the table of daily processes *)



(** The model's window on a day on which the clocks go back: New York, 1
    November 2026, 9 a.m. local time.  Midnight was still on daylight time,
    four hours behind UTC; the end of the day is on standard time, five hours
    behind; the day is 25 hours long. *)
Example window_on_daylight_saving_change :
  startOfDay Ward.new_york_morning = 1793505600000 /\
  endOfDay Ward.new_york_morning = 1793595599999.
Proof. split; reflexivity. Qed.

Lemma NoDup_fmap_inj_on {A B : Type} (g : A -> B) (l : list A) x y :
  NoDup (g <$> l) -> x ∈ l -> y ∈ l -> g x = g y -> x = y.
Proof.
  intros Hnd [i Hi]%list_elem_of_lookup_1 [j Hj]%list_elem_of_lookup_1 Hg.
  assert (i = j) as ->.
  { eapply (NoDup_lookup (g <$> l) i j (g x)); [exact Hnd | |].
    - rewrite list_lookup_fmap, Hi. reflexivity.
    - rewrite list_lookup_fmap, Hj, Hg. reflexivity. }
  congruence.
Qed.

(** The daily process the lookup returns does not depend on the order in
    which the table holds its rows, as long as no two rows of the window
    were created at the same instant; and the lookup finds nothing exactly
    when no row of the table is dated in the window. *)
Theorem findFirst_table_order gte lt tbl tbl' :
  (dailyProcess_findFirst gte lt tbl = None <->
   forall d, d ∈ tbl -> ~ date_where gte lt d) /\
  (tbl ≡ₚ tbl' ->
   NoDup (createdAt <$> filter (date_where gte lt) tbl) ->
   dailyProcess_findFirst gte lt tbl = dailyProcess_findFirst gte lt tbl').
Proof.
  split.
  - split.
    + intros Hnone d Hd Hw.
      destruct (findFirst_Some _ _ _ _ Hd Hw) as [e He]. congruence.
    + intros Hall. destruct (dailyProcess_findFirst gte lt tbl) as [d|] eqn:Hd; [|reflexivity].
      destruct (findFirst_spec _ _ _ _ Hd) as (Hin & Hw & _). destruct (Hall d Hin Hw).
  - intros Hperm Hnd.
    destruct (dailyProcess_findFirst gte lt tbl) as [d|] eqn:Hd;
      destruct (dailyProcess_findFirst gte lt tbl') as [d'|] eqn:Hd'; try reflexivity.
    + destruct (findFirst_spec _ _ _ _ Hd) as (Hin & Hw & Hmax).
      destruct (findFirst_spec _ _ _ _ Hd') as (Hin' & Hw' & Hmax').
      rewrite <- Hperm in Hin'.
      assert (Hin2 : d ∈ tbl') by (rewrite <- Hperm; exact Hin).
      f_equal. apply (NoDup_fmap_inj_on createdAt (filter (date_where gte lt) tbl)).
      * exact Hnd.
      * apply list_elem_of_filter. auto.
      * apply list_elem_of_filter. auto.
      * specialize (Hmax d' Hin' Hw'). specialize (Hmax' d Hin2 Hw). lia.
    + destruct (findFirst_spec _ _ _ _ Hd) as (Hin & Hw & _).
      rewrite Hperm in Hin. destruct (findFirst_Some _ _ _ _ Hin Hw) as [e He]. congruence.
    + destruct (findFirst_spec _ _ _ _ Hd') as (Hin & Hw & _).
      rewrite <- Hperm in Hin. destruct (findFirst_Some _ _ _ _ Hin Hw) as [e He]. congruence.
Qed.

Lemma findFirst_table_order_witness :
  dailyProcess_findFirst (startOfDay Ward.clock) (endOfDay Ward.clock)
    [Ward.today; Ward.reopened; Ward.yesterday] =
  dailyProcess_findFirst (startOfDay Ward.clock) (endOfDay Ward.clock)
    [Ward.yesterday; Ward.reopened; Ward.today].
Proof.
  apply (findFirst_table_order (startOfDay Ward.clock) (endOfDay Ward.clock)
           [Ward.today; Ward.reopened; Ward.yesterday]
           [Ward.yesterday; Ward.reopened; Ward.today]).
  - etransitivity; [apply Permutation_swap|].
    etransitivity; [apply perm_skip, Permutation_swap|]. apply Permutation_swap.
  - vm_compute. repeat constructor; rewrite ?elem_of_cons; intros H;
      repeat (destruct H as [H | H]; [discriminate|]); inversion H.
Defined.


(** ** The four presence checks *)

Lemma POST_signed_in f clk s req body :
  signed_in_with_profile s req -> req_body req = Some body ->
  (POST f clk s req).1 =
  if negb (truthy (qrId body)) then QrIdRequired
  else if nullish (temperature body) then TemperatureRequired
  else if negb (truthy (destinationLineId body)) then DestinationLineRequired
  else if negb (truthy (transactionType body)) then TransactionTypeRequired
  else (POST f clk s req).1.
Proof.
  intros (He & user & Hu & [pr Hp]) Hb.
  destruct (truthy (qrId body)) eqn:Hq; simpl;
    [destruct (nullish (temperature body)) eqn:Ht; simpl;
     [|destruct (truthy (destinationLineId body)) eqn:Hl; simpl;
       [destruct (truthy (transactionType body)) eqn:Hx; simpl; [reflexivity|]|]]|];
    unfold POST, POST_finish, POST_resolve; rewrite He, Hu; simpl; rewrite Hp; simpl;
    rewrite Hb; simpl; rewrite Hq; simpl; try rewrite Ht; simpl; try rewrite Hl; simpl;
    try rewrite Hx; reflexivity.
Qed.

(** Once the four fields are present, the answer is none of the four
    "... is required" answers. *)
Lemma POST_fields_present f clk s req body :
  signed_in_with_profile s req -> req_body req = Some body ->
  truthy (qrId body) = true -> nullish (temperature body) = false ->
  truthy (destinationLineId body) = true -> truthy (transactionType body) = true ->
  ~ (POST f clk s req).1 ∈
      [QrIdRequired; TemperatureRequired; DestinationLineRequired; TransactionTypeRequired].
Proof.
  intros (He & user & Hu & [pr Hp]) Hb Hq Ht Hl Hx Hin.
  assert (Hbody : forall r, r ∈ [QrIdRequired; TemperatureRequired; DestinationLineRequired;
                                  TransactionTypeRequired] ->
            resp_status r = 400 /\
            resp_body r <> resp_body InvalidDestinationLine /\
            resp_body r <> resp_body InvalidQRCode /\
            resp_body r <> resp_body NoActiveDailyProcess /\
            forall l, resp_body r <> resp_body (NoDevolutionProcesses l)).
  { intros r Hr. repeat (apply elem_of_cons in Hr as [-> | Hr];
      [repeat split; try discriminate; intros l; discriminate|]). inversion Hr. }
  destruct (Hbody _ Hin) as (H400 & N1 & N2 & N3 & N4). clear Hbody Hin.
  revert H400 N1 N2 N3 N4. unfold POST, POST_finish, POST_resolve.
  rewrite He, Hu; simpl. rewrite Hp; simpl. rewrite Hb; simpl.
  rewrite Hq, Ht, Hl, Hx; simpl.
  destruct (findUnique (lines s) (destinationLineId body)) as [r0| |[line|]] eqn:Hline;
    simpl; try discriminate; [destruct (findUnique_no_Return _ _ _ Hline) | | congruence].
  destruct (findUnique (qrCodes s) (qrId body)) as [r0| |[qr|]] eqn:Hqr;
    simpl; try discriminate; [destruct (findUnique_no_Return _ _ _ Hqr) | | congruence].
  destruct (isActive qr && String.eqb (qr_type qr) _) eqn:Hvalid; simpl; [|congruence].
  destruct (dailyProcess_findFirst _ _ _) as [dp|] eqn:Hdp; simpl; [|congruence].
  destruct (length _ =? 0)%nat eqn:Hlen; simpl.
  - intros _ _ _ _ N4. destruct (N4 line). reflexivity.
  - intros H400 _ _ _ _.
    set (pl := Build_Plan user body line qr dp
                 (medicationProcess_findMany s (dp_id dp) (destinationLineId body))) in *.
    assert (Hcur : rows_current s (devolutionProcesses pl)) by apply findMany_rows_current.
    destruct (commit_status f clk pl s Hcur) as [H | H]; rewrite H in H400; discriminate.
Qed.

(** For a signed-in user with a profile and a body, each of the four "... is
    required" answers is given exactly when its field is the first one
    missing, in the order qrId, temperature, destinationLineId,
    transactionType.  Missing means falsy for three of them but undefined or
    null for the temperature: a temperature of 0, [false] or the empty string
    is let through, a destinationLineId of 0 or the empty string is not. *)
Theorem field_errors f clk s req body :
  signed_in_with_profile s req -> req_body req = Some body ->
  ((POST f clk s req).1 = QrIdRequired <-> truthy (qrId body) = false) /\
  ((POST f clk s req).1 = TemperatureRequired <->
   truthy (qrId body) = true /\ nullish (temperature body) = true) /\
  ((POST f clk s req).1 = DestinationLineRequired <->
   truthy (qrId body) = true /\ nullish (temperature body) = false /\
   truthy (destinationLineId body) = false) /\
  ((POST f clk s req).1 = TransactionTypeRequired <->
   truthy (qrId body) = true /\ nullish (temperature body) = false /\
   truthy (destinationLineId body) = true /\ truthy (transactionType body) = false).
Proof.
  intros Hs Hb. pose proof (POST_signed_in f clk s req body Hs Hb) as Heq.
  pose proof (POST_fields_present f clk s req body Hs Hb) as Hnone.
  destruct (truthy (qrId body)); simpl in Heq;
    [|rewrite Heq; repeat split; intros; try reflexivity; try discriminate;
      intuition discriminate].
  destruct (nullish (temperature body)); simpl in Heq;
    [rewrite Heq; repeat split; intros; try reflexivity; try discriminate;
     intuition discriminate|].
  destruct (truthy (destinationLineId body)); simpl in Heq;
    [|rewrite Heq; repeat split; intros; try reflexivity; try discriminate;
      intuition discriminate].
  destruct (truthy (transactionType body)); simpl in Heq;
    [|rewrite Heq; repeat split; intros; try reflexivity; try discriminate;
      intuition discriminate].
  specialize (Hnone eq_refl eq_refl eq_refl eq_refl).
  repeat split; intros; try discriminate; try (intuition discriminate);
    match goal with
    | H : (POST f clk s req).1 = _ |- _ => destruct Hnone; rewrite H; set_solver
    end.
Qed.

Lemma field_errors_witness :
  (POST no_faults Ward.clock Ward.store
     (Ward.scan "QR-DEV" "line-1" (JNumber (0 # 1)))).1 <> TemperatureRequired /\
  (POST no_faults Ward.clock Ward.store (Ward.scan "QR-DEV" "" (JNumber (4 # 1)))).1 =
    DestinationLineRequired.
Proof.
  split.
  - intros H.
    apply (field_errors no_faults Ward.clock Ward.store
             (Ward.scan "QR-DEV" "line-1" (JNumber (0 # 1)))
             {| qrId := JString "QR-DEV"; temperature := JNumber (0 # 1);
                destinationLineId := JString "line-1";
                transactionType := JString "DEVOLUCION" |}) in H.
    + destruct H as [_ H]. discriminate H.
    + split; [reflexivity|]. exists {| user_id := "user-1" |}.
      split; [reflexivity | vm_compute; eauto].
    + reflexivity.
  - apply (field_errors no_faults Ward.clock Ward.store
             (Ward.scan "QR-DEV" "" (JNumber (4 # 1)))
             {| qrId := JString "QR-DEV"; temperature := JNumber (4 # 1);
                destinationLineId := JString "";
                transactionType := JString "DEVOLUCION" |}).
    + split; [reflexivity|]. exists {| user_id := "user-1" |}.
      split; [reflexivity | vm_compute; eauto].
    + reflexivity.
    + repeat split.
Defined.

(** * The health check *)

(** The health check answers 200 exactly when the database probe went through
    and 503 exactly when it failed, and unless NODE_ENV is "development" the
    answer to a failed probe is the same whatever the message of the error:
    the message is only ever sent in development. *)
Theorem health_report node_env now probe :
  (Health.http_status (Health.GET node_env now probe) = 200 <-> probe = Health.Connected) /\
  (Health.http_status (Health.GET node_env now probe) = 503 <->
   exists message, probe = Health.Failed message) /\
  (node_env <> Some "development" ->
   forall m m', Health.GET node_env now (Health.Failed m) =
                Health.GET node_env now (Health.Failed m')) /\
  (forall m, Health.error (Health.body (Health.GET (Some "development") now (Health.Failed m)))
             = Some m).
Proof.
  split; [|split; [|split]].
  - destruct probe; simpl; split; intros H; try reflexivity; discriminate.
  - destruct probe; simpl; split; intros H; try discriminate; eauto.
    destruct H; discriminate.
  - intros Hdev m m'. unfold Health.GET.
    rewrite bool_decide_eq_false_2 by exact Hdev. reflexivity.
  - intros m. reflexivity.
Qed.

(** * The mutation hooks *)

Lemma throw_error_of_Rejected p fallback : exists reason,
  Hooks.throw_error_of p fallback = Hooks.Rejected reason.
Proof. destruct p; simpl; eauto. Qed.

Lemma throw_error_of_truthy p fallback arg :
  fallback <> "" ->
  Hooks.throw_error_of p fallback = Hooks.Rejected (Hooks.ErrorWith arg) ->
  truthy arg = true.
Proof.
  intros Hne. assert (Hf : truthy (JString fallback) = true).
  { simpl. destruct (String.eqb_spec fallback ""); [contradiction | reflexivity]. }
  destruct p as [|v|e]; simpl; [discriminate | congruence |].
  destruct (truthy e) eqn:He; congruence.
Qed.

(** Both mutations resolve exactly when [fetch] settled with a status from
    200 to 299 and the body parsed as JSON, and then to the parsed body; on
    any other status they reject, whatever the body holds. *)
Theorem mutation_resolves_iff fetched data :
  (Hooks.createMutationFn fetched = Hooks.Resolved data <->
   exists r, fetched = Some r /\ 200 <= Hooks.status r <= 299 /\ Hooks.json r = Some data) /\
  (Hooks.updateMutationFn fetched = Hooks.Resolved data <->
   exists r, fetched = Some r /\ 200 <= Hooks.status r <= 299 /\ Hooks.json r = Some data).
Proof.
  assert (Hok : forall r, Hooks.ok r = true <-> 200 <= Hooks.status r <= 299).
  { intros r. unfold Hooks.ok. rewrite andb_true_iff, !Z.leb_le. reflexivity. }
  assert (Hret : forall r, Hooks.return_json r = Hooks.Resolved data <->
                           Hooks.json r = Some data).
  { intros r. unfold Hooks.return_json. destruct (Hooks.json r); split; congruence. }
  split; (split;
    [ destruct fetched as [r|]; simpl; [|discriminate];
      destruct (Hooks.ok r) eqn:Hr; simpl;
      [ intros H; exists r; split; [reflexivity|]; split; [apply Hok, Hr | apply Hret, H]
      | repeat (match goal with |- context [(?a =? ?b)%Z] => destruct (a =? b)%Z end);
        try discriminate;
        match goal with
        | |- context [Hooks.throw_error_of ?p ?fb] =>
            destruct (throw_error_of_Rejected p fb) as [reason ->]
        end; discriminate ]
    | intros (r & -> & Hst & Hj); simpl;
      rewrite (proj2 (Hok r) Hst); simpl; apply Hret, Hj ]).
Qed.

(** Whenever one of the two mutations rejects with an [Error] of its own
    making, the argument of that [Error] is truthy, even when the server
    sent an empty, null or missing [error]; an argument that is a string is
    therefore not the empty string.  A truthy [error] that is not a string,
    such as an array, is handed to [Error] as it is: what message is made
    of it is outside this statement. *)
Theorem mutation_error_never_empty fetched arg :
  Hooks.createMutationFn fetched = Hooks.Rejected (Hooks.ErrorWith arg) \/
  Hooks.updateMutationFn fetched = Hooks.Rejected (Hooks.ErrorWith arg) ->
  truthy arg = true /\ (forall m, arg = JString m -> m <> EmptyString).
Proof.
  intros H.
  assert (Ht : truthy arg = true).
  { destruct H as [H | H]; destruct fetched as [r|]; simpl in H; try discriminate;
      destruct (Hooks.ok r); simpl in H;
      try (unfold Hooks.return_json in H; destruct (Hooks.json r); discriminate);
      repeat (match type of H with
              | context [(?a =? ?b)%Z] => destruct (a =? b)%Z
              end);
      try (injection H as <-; reflexivity);
      (eapply throw_error_of_truthy; [|exact H]; discriminate). }
  split; [exact Ht|]. intros m -> ->. discriminate Ht.
Qed.

Lemma mutation_error_never_empty_witness :
  Hooks.createMutationFn
    (Some {| Hooks.status := 500; Hooks.json := Some (Hooks.PObject (JString "")) |})
  = Hooks.Rejected (Hooks.ErrorWith (JString "Error al crear el proceso de medicación")) /\
  truthy (JString "Error al crear el proceso de medicación") = true /\
  "Error al crear el proceso de medicación" <> EmptyString.
Proof.
  split; [reflexivity|].
  destruct (mutation_error_never_empty
              (Some {| Hooks.status := 500; Hooks.json := Some (Hooks.PObject (JString "")) |})
              (JString "Error al crear el proceso de medicación")) as [Ht Hm].
  - left. reflexivity.
  - split; [exact Ht|]. apply Hm. reflexivity.
Defined.

(** On the statuses a mutation has a message of its own for -- 400, 401, 403
    and 409 when creating, 401, 403 and 404 when updating -- the outcome does
    not depend on the body of the response.  On every other status outside
    200-299 a truthy [error] of the body is what the [Error] is built from;
    so a 400 shows the server's text when updating but not when creating. *)
Theorem masked_statuses st :
  (st = 400 \/ st = 401 \/ st = 403 \/ st = 409 ->
   forall j j', Hooks.createMutationFn (Some {| Hooks.status := st; Hooks.json := j |}) =
                Hooks.createMutationFn (Some {| Hooks.status := st; Hooks.json := j' |})) /\
  (st = 401 \/ st = 403 \/ st = 404 ->
   forall j j', Hooks.updateMutationFn (Some {| Hooks.status := st; Hooks.json := j |}) =
                Hooks.updateMutationFn (Some {| Hooks.status := st; Hooks.json := j' |})) /\
  (forall e, truthy e = true -> ~ 200 <= st <= 299 ->
     (st <> 400 -> st <> 401 -> st <> 403 -> st <> 409 ->
      Hooks.createMutationFn
        (Some {| Hooks.status := st; Hooks.json := Some (Hooks.PObject e) |}) =
      Hooks.Rejected (Hooks.ErrorWith e)) /\
     (st <> 401 -> st <> 403 -> st <> 404 ->
      Hooks.updateMutationFn
        (Some {| Hooks.status := st; Hooks.json := Some (Hooks.PObject e) |}) =
      Hooks.Rejected (Hooks.ErrorWith e))).
Proof.
  split; [|split].
  - intros [-> | [-> | [-> | ->]]] j j'; reflexivity.
  - intros [-> | [-> | ->]] j j'; reflexivity.
  - intros e He Hst.
    assert (Hok : Hooks.ok {| Hooks.status := st; Hooks.json := Some (Hooks.PObject e) |}
                  = false).
    { unfold Hooks.ok; simpl. apply andb_false_iff.
      destruct (Z.leb_spec 200 st); [right; apply Z.leb_gt; lia | left; reflexivity]. }
    split.
    + intros N0 N1 N3 N9. unfold Hooks.createMutationFn. rewrite Hok; simpl.
      rewrite (proj2 (Z.eqb_neq st 409) N9), (proj2 (Z.eqb_neq st 403) N3),
        (proj2 (Z.eqb_neq st 401) N1), (proj2 (Z.eqb_neq st 400) N0).
      simpl. rewrite He. reflexivity.
    + intros N1 N3 N4. unfold Hooks.updateMutationFn. rewrite Hok; simpl.
      rewrite (proj2 (Z.eqb_neq st 404) N4), (proj2 (Z.eqb_neq st 403) N3),
        (proj2 (Z.eqb_neq st 401) N1).
      simpl. rewrite He. reflexivity.
Qed.

Lemma masked_statuses_witness :
  Hooks.updateMutationFn
    (Some {| Hooks.status := 400; Hooks.json := Some (Hooks.PObject (JString "Estado inválido")) |})
  = Hooks.Rejected (Hooks.ErrorWith (JString "Estado inválido")).
Proof.
  apply (masked_statuses 400); try reflexivity; lia.
Defined.
